(** * ORASP instance generator: a shallow embedding of [generateur_ORASP.py]

    The generator builds random instances of an operating-room scheduling
    model and renders them as text.  The embedding keeps the structure of
    the Python module: every generator function is a definition of the same
    name, loops are monadic folds over [range], the two pseudo-random
    generators are an explicit state, and Python exceptions are an error
    result. *)

From Stdlib Require Import ZArith QArith List String Ascii Bool Lia DecimalString.
From Stdlib Require DecimalPos DecimalZ.
Import ListNotations.
Open Scope Z_scope.

(** ** Python values and primitives *)

Module Py.

(** Exceptions the generator can raise. *)
Inductive exn : Type :=
  | ValueError
  | ZeroDivisionError
  | IndexError
  | OSError.

Inductive result (A : Type) : Type :=
  | Ok (a : A)
  | Raise (e : exn).
Arguments Ok {A} a.
Arguments Raise {A} e.

(** [range(n)]: empty when [n <= 0]. *)
Definition range (n : Z) : list Z := map Z.of_nat (seq 0 (Z.to_nat n)).

(** [len(l)] *)
Definition len {A : Type} (l : list A) : Z := Z.of_nat (List.length l).

(** [l[i]]: a negative index counts from the end; out of range raises. *)
Definition index {A : Type} (l : list A) (i : Z) : result A :=
  let j := if i <? 0 then i + len l else i in
  if (j <? 0) || (len l <=? j) then Raise IndexError
  else match nth_error l (Z.to_nat j) with
       | Some a => Ok a
       | None => Raise IndexError
       end.

Fixpoint set_nth {A : Type} (l : list A) (n : nat) (a : A) : list A :=
  match l, n with
  | [], _ => []
  | _ :: l', O => a :: l'
  | x :: l', S n' => x :: set_nth l' n' a
  end.

(** [l[i] = a] *)
Definition assign {A : Type} (l : list A) (i : Z) (a : A) : result (list A) :=
  let j := if i <? 0 then i + len l else i in
  if (j <? 0) || (len l <=? j) then Raise IndexError
  else Ok (set_nth l (Z.to_nat j) a).

(** [a % b] on integers: the sign follows the divisor, as [Z.modulo] does. *)
Definition mod_ (a b : Z) : result Z :=
  if b =? 0 then Raise ZeroDivisionError else Ok (a mod b).

(** [int(x)] on a number: truncation toward zero. *)
Definition int (x : Q) : Z := Z.quot (Qnum x) (Zpos (Qden x)).

(** [x < y] on numbers. *)
Definition lt (x y : Q) : bool := (Qnum x * QDen y <? Qnum y * QDen x)%Z.

(** [str(n)] for an integer. *)
Definition str_int (z : Z) : string := NilZero.string_of_int (Z.to_int z).

Fixpoint join (sep : string) (l : list string) : string :=
  match l with
  | [] => EmptyString
  | [s] => s
  | s :: l' => (s ++ sep ++ join sep l')%string
  end.

(** [str(l)] for a list whose elements are printed by [f]. *)
Definition str_list_with {A : Type} (f : A -> string) (l : list A) : string :=
  ("[" ++ join ", " (map f l) ++ "]")%string.

Definition str_list : list Z -> string := str_list_with str_int.
Definition str_matrix : list (list Z) -> string := str_list_with str_list.

(** [[a] * n] *)
Definition replicate {A : Type} (n : Z) (a : A) : list A := repeat a (Z.to_nat n).

(** The line feed of ["\n"]. *)
Definition nl : string := String (ascii_of_nat 10) EmptyString.

End Py.
Import Py.

(** ** Pseudo-random state

    The module draws from two generators: the standard [random] module and
    [numpy.random].  Each is a tape of raw draws and a read position; a
    call reads one cell and moves on.  Every statement below quantifies
    over the tapes, so it holds for whatever the generators produce. *)

Record Rng : Type := mkRng {
  mt_tape : nat -> Z;
  mt_pos : nat;
  np_tape : nat -> N * positive;
  np_pos : nat
}.

(** Computations that read the generators and may raise. *)
Definition M (A : Type) : Type := Rng -> result (A * Rng).

Definition ret {A : Type} (a : A) : M A := fun g => Ok (a, g).

Definition raise {A : Type} (e : exn) : M A := fun _ => Raise e.

Definition bind {A B : Type} (m : M A) (k : A -> M B) : M B :=
  fun g => match m g with
           | Ok (a, g') => k a g'
           | Raise e => Raise e
           end.

(** A computation that does not touch the generators. *)
Definition lift {A : Type} (r : result A) : M A :=
  fun g => match r with
           | Ok a => Ok (a, g)
           | Raise e => Raise e
           end.

Declare Scope gen_scope.
Delimit Scope gen_scope with gen.
Notation "x <- m ;; k" := (bind m (fun x => k))
  (at level 61, m at next level, right associativity) : gen_scope.
Notation "' p <- m ;; k" := (bind m (fun x => let p := x in k))
  (at level 61, p pattern, m at next level, right associativity) : gen_scope.
Open Scope gen_scope.

(** [for a in l: s = body(s, a)] *)
Fixpoint foldM {S A : Type} (body : S -> A -> M S) (l : list A) (s : S) : M S :=
  match l with
  | [] => ret s
  | a :: l' => s' <- body s a ;; foldM body l' s'
  end.

(** [[f(a) for a in l]] *)
Fixpoint mapM {A B : Type} (f : A -> M B) (l : list A) : M (list B) :=
  match l with
  | [] => ret []
  | a :: l' => b <- f a ;; bs <- mapM f l' ;; ret (b :: bs)
  end.

Module Random.

Definition advance_mt (g : Rng) : Rng :=
  mkRng (mt_tape g) (S (mt_pos g)) (np_tape g) (np_pos g).

Definition advance_np (g : Rng) : Rng :=
  mkRng (mt_tape g) (mt_pos g) (np_tape g) (S (np_pos g)).

(** [random.random()]: a 53-bit fraction [k / 2^53] with [0 <= k < 2^53]. *)
Definition random : M Q :=
  fun g => Ok ((mt_tape g (mt_pos g) mod 2 ^ 53) # (2 ^ 53), advance_mt g).

(** [random.uniform(a, b)] is [a + (b - a) * random()]. *)
Definition uniform (a b : Q) : M Q :=
  u <- random ;; ret (a + (b - a) * u)%Q.

(** [random.randint(a, b)]: an integer of [[a, b]]; an empty range raises. *)
Definition randint (a b : Z) : M Z :=
  if b <? a then raise ValueError
  else fun g => Ok (a + mt_tape g (mt_pos g) mod (b - a + 1), advance_mt g).

(** [numpy.random.lognormal(mean, sigma)]: the exponential of a normal
    draw, a non-negative number; the tape gives it as a fraction, and the
    arithmetic on it is exact (rounding is not modelled). *)
Definition lognormal (mean sigma : Q) : M Q :=
  fun g => let '(n, d) := np_tape g (np_pos g) in
           Ok (Z.of_N n # d, advance_np g).

End Random.

(** Computations that may raise but read no generator. *)
Definition rbind {A B : Type} (r : result A) (k : A -> result B) : result B :=
  match r with
  | Ok a => k a
  | Raise e => Raise e
  end.

Notation "x <~ r ;; k" := (rbind r (fun x => k))
  (at level 61, r at next level, right associativity) : gen_scope.

Fixpoint foldR {S A : Type} (body : S -> A -> result S) (l : list A) (s : S)
  : result S :=
  match l with
  | [] => Ok s
  | a :: l' => s' <~ body s a ;; foldR body l' s'
  end.

(** ** Global parameters

    The module-level variables the functions read ([nb_equipment_types],
    [nb_equipments] and [nb_patients] are assigned but never read). *)

Record Globals : Type := mkGlobals {
  nb_operations : Z;
  nb_surgeons : Z;
  nb_rooms : Z;
  enable_setup_times : bool;
  enable_surgeon_schedule : bool;
  all_rooms_available : bool
}.

(** The values the module assigns. *)
Definition module_globals : Globals := mkGlobals 15 4 4 true false false.

(** ["NAME = " + literal + "; \n"] *)
Definition stmt (name literal : string) : string :=
  (name ++ " = " ++ literal ++ "; " ++ nl)%string.

(** ** Variable and set declaration *)

Definition define_sets (nb_surgeons nb_rooms nb_operations : Z) : string :=
  let output := EmptyString in
  let output := (output ++ stmt "O" (str_list (range nb_operations)))%string in
  let output := (output ++ stmt "C" (str_list (range nb_surgeons)))%string in
  let output := (output ++ stmt "S" (str_list (range nb_rooms)))%string in
  output.

(** ** Room availability per operation *)

(** The default [probability=0.9], as the double it denotes. *)
Definition default_probability : Q := 8106479329266893 # (2 ^ 53).

(** One turn of the loop over rooms; the state is [(row, only_zeros)]. *)
Definition room_cell (nb_rooms : Z) (probability : Q)
    (st : list Z * bool) (r : Z) : M (list Z * bool) :=
  let '(row, only_zeros) := st in
  if (r =? nb_rooms - 1) && only_zeros then ret (row ++ [1], only_zeros)
  else
    u <- Random.uniform 0 1 ;;
    if lt u probability then ret (row ++ [1], false)
    else ret (row ++ [0], only_zeros).

(** One turn of the loop over operations; the state is [matrix]. *)
Definition room_row (nb_rooms : Z) (probability : Q)
    (matrix : list (list Z)) (o : Z) : M (list (list Z)) :=
  st <- foldM (room_cell nb_rooms probability) (range nb_rooms) ([], true) ;;
  ret (matrix ++ [fst st]).

(** The matrix [A[o][s]] the function builds before printing it. *)
Definition room_availability_matrix (gl : Globals)
    (nb_operations nb_rooms : Z) (probability : Q) : M (list (list Z)) :=
  let probability := if all_rooms_available gl then 1%Q else probability in
  foldM (room_row nb_rooms probability) (range nb_operations) [].

Definition generate_room_availability (gl : Globals)
    (nb_operations nb_rooms : Z) (probability : Q) : M string :=
  matrix <- room_availability_matrix gl nb_operations nb_rooms probability ;;
  ret (stmt "A" (str_matrix matrix)).

(** ** Surgeon eligibility matrix *)

(** [matrix[c].append(1 if c == current_surgeon else 0)] *)
Definition surgeon_cell (current_surgeon : Z)
    (matrix : list (list Z)) (c : Z) : result (list (list Z)) :=
  row <~ index matrix c ;;
  assign matrix c (row ++ [if c =? current_surgeon then 1 else 0]).

Definition surgeon_column (nb_surgeons : Z)
    (matrix : list (list Z)) (o : Z) : result (list (list Z)) :=
  current_surgeon <~ mod_ o nb_surgeons ;;
  foldR (surgeon_cell current_surgeon) (range nb_surgeons) matrix.

Definition surgeon_eligibility_matrix (nb_surgeons nb_operations : Z)
  : result (list (list Z)) :=
  let matrix := map (fun _ => []) (range nb_surgeons) in
  foldR (surgeon_column nb_surgeons) (range nb_operations) matrix.

Definition generate_surgeon_eligibility (nb_surgeons nb_operations : Z)
  : result (list (list Z) * string) :=
  matrix <~ surgeon_eligibility_matrix nb_surgeons nb_operations ;;
  Ok (matrix, stmt "X" (str_matrix matrix)).

(** ** Surgeon working hours *)

Definition max_time (gl : Globals) : Z :=
  if enable_surgeon_schedule gl then 800 else 10000.

(** One turn of the loop over surgeons; the state is [(F, G)]. *)
Definition surgeon_window (max_time : Z)
    (st : list Z * list Z) (_ : Z) : M (list Z * list Z) :=
  let '(F, G) := st in
  shift_type <- Random.randint 2 2 ;;
  if shift_type =? 0 then
    ret (F ++ [0], G ++ [int (inject_Z max_time / 2)%Q])
  else if shift_type =? 1 then
    ret (F ++ [int (inject_Z max_time / 2)%Q], G ++ [max_time])
  else if shift_type =? 2 then
    ret (F ++ [0], G ++ [max_time])
  else ret (F, G).

(** The vectors [F] and [G] the function builds before printing them. *)
Definition surgeon_time_windows (gl : Globals) (nb_surgeons : Z)
  : M (list Z * list Z) :=
  foldM (surgeon_window (max_time gl)) (range nb_surgeons) ([], []).

Definition generate_surgeon_time_windows (gl : Globals) (nb_surgeons : Z)
  : M string :=
  '(F, G) <- surgeon_time_windows gl nb_surgeons ;;
  ret (stmt "F" (str_list F) ++ stmt "G" (str_list G))%string.

(** ** Operation types and setup times *)

(** The loop over surgeons for operation [o], left at the first eligible
    surgeon ([break]); the state is [(T, type_by_operation)]. *)
Fixpoint assign_type (eligibility_matrix : list (list Z))
    (type_by_surgeon : list Z) (o : Z) (cs : list Z)
    (st : list (list Z) * list Z) : result (list (list Z) * list Z) :=
  match cs with
  | [] => Ok st
  | c :: cs' =>
      row <~ index eligibility_matrix c ;;
      e <~ index row o ;;
      if e =? 1 then
        let '(T, type_by_operation) := st in
        t <~ index type_by_surgeon c ;;
        T_o <~ index T o ;;
        T_o <~ assign T_o t 1 ;;
        T <~ assign T o T_o ;;
        type_by_operation <~ assign type_by_operation o t ;;
        Ok (T, type_by_operation)
      else assign_type eligibility_matrix type_by_surgeon o cs' st
  end.

(** [type_transition_time[t1][t2]] *)
Definition transition_cell (gl : Globals) (max_setup_time t1 t2 : Z) : M Z :=
  if (t1 =? t2) || negb (enable_setup_times gl) then ret 0
  else Random.randint 0 max_setup_time.

Definition type_transition_time (gl : Globals) (max_setup_time nb_types : Z)
  : M (list (list Z)) :=
  mapM (fun t1 => mapM (transition_cell gl max_setup_time t1) (range nb_types))
       (range nb_types).

(** [TD[o1].append(type_transition_time[t1][t2])] *)
Definition setup_cell (type_by_operation : list Z)
    (type_transition_time : list (list Z)) (o1 : Z)
    (row : list Z) (o2 : Z) : result (list Z) :=
  t1 <~ index type_by_operation o1 ;;
  t2 <~ index type_by_operation o2 ;;
  line <~ index type_transition_time t1 ;;
  d <~ index line t2 ;;
  Ok (row ++ [d]).

(** [TD.append([])] and the loop that fills this last row. *)
Definition setup_row (nb_operations : Z) (type_by_operation : list Z)
    (type_transition_time : list (list Z))
    (TD : list (list Z)) (o1 : Z) : result (list (list Z)) :=
  row <~ foldR (setup_cell type_by_operation type_transition_time o1)
               (range nb_operations) [] ;;
  Ok (TD ++ [row]).

(** The matrices [T] and [TD] the function builds before printing them. *)
Definition types_and_setup_times (gl : Globals) (nb_operations : Z)
    (eligibility_matrix : list (list Z)) (max_setup_time nb_types : Z)
  : M (list (list Z) * list (list Z)) :=
  let nb_surgeons := len eligibility_matrix in
  type_by_surgeon <-
    mapM (fun _ => Random.randint 0 (nb_types - 1)) (range nb_surgeons) ;;
  let T := map (fun _ => map (fun _ => 0) (range nb_types))
               (range nb_operations) in
  let type_by_operation := replicate nb_operations (-1) in
  st <- lift (foldR (fun st o =>
                       assign_type eligibility_matrix type_by_surgeon o
                                   (range nb_surgeons) st)
                    (range nb_operations) (T, type_by_operation)) ;;
  let '(T, type_by_operation) := st in
  type_transition_time <- type_transition_time gl max_setup_time nb_types ;;
  TD <- lift (foldR (setup_row nb_operations type_by_operation
                               type_transition_time)
                    (range nb_operations) []) ;;
  ret (T, TD).

Definition generate_types_and_setup_times (gl : Globals) (nb_operations : Z)
    (eligibility_matrix : list (list Z)) (max_setup_time nb_types : Z)
  : M string :=
  '(T, TD) <- types_and_setup_times gl nb_operations eligibility_matrix
                                    max_setup_time nb_types ;;
  ret (stmt "T" (str_matrix T) ++ stmt "TD" (str_matrix TD))%string.

(** ** Operation durations *)

Record Durations : Type := mkDurations {
  TP : list Z;
  TC : list Z;
  TN : list Z;
  TT : list Z
}.

(** One turn of the loop over operations. *)
Definition operation_duration (d : Durations) (_ : Z) : M Durations :=
  prep <- Random.randint 5 30 ;;
  x <- Random.lognormal 4 (1 # 2) ;;
  let surg := int (x + 1)%Q in
  clean <- Random.randint 10 20 ;;
  ret (mkDurations (TP d ++ [prep]) (TC d ++ [surg]) (TN d ++ [clean])
                   (TT d ++ [prep + surg + clean])).

(** The four vectors the function builds before printing them. *)
Definition operation_durations (nb_operations : Z) : M Durations :=
  foldM operation_duration (range nb_operations) (mkDurations [] [] [] []).

Definition generate_operation_durations (nb_operations : Z) : M string :=
  d <- operation_durations nb_operations ;;
  ret (stmt "TP" (str_list (TP d)) ++ stmt "TC" (str_list (TC d)) ++
       stmt "TN" (str_list (TN d)) ++ stmt "TT" (str_list (TT d)))%string.

(** ** File generation *)

Definition create_instance (gl : Globals)
    (nb_operations nb_surgeons nb_rooms Tmax : Z) : M string :=
  let instance := nl in
  let instance :=
    (instance ++ define_sets nb_surgeons nb_rooms nb_operations)%string in
  let instance := (instance ++ nl)%string in
  a <- generate_room_availability gl nb_operations nb_rooms
                                  default_probability ;;
  let instance := (instance ++ a)%string in
  '(eligibility_matrix, matrix_X) <-
    lift (generate_surgeon_eligibility nb_surgeons nb_operations) ;;
  let instance := (instance ++ matrix_X)%string in
  w <- generate_surgeon_time_windows gl nb_surgeons ;;
  let instance := (instance ++ w)%string in
  d <- generate_operation_durations nb_operations ;;
  let instance := (instance ++ d)%string in
  t <- generate_types_and_setup_times gl nb_operations eligibility_matrix
                                      30 4 ;;
  let instance := (instance ++ t)%string in
  let instance := (instance ++ stmt "Tmax" (str_int Tmax))%string in
  let instance := (instance ++ stmt "M" "999999")%string in
  let instance := (instance ++ nl)%string in
  ret instance.

(** The default [Tmax=45]. *)
Definition default_Tmax : Z := 45.

(** ** Multiple instance export

    The file system and the console are a trace of the calls that
    succeeded; [fs] gives the outcome of each file-system call: [Ok], or
    the exception it raises ([OSError] when the system refuses the call,
    [ValueError] for a path that holds a NUL character).  A
    run returns its outcome together with the world it leaves, so that what
    was done before an exception stays visible. *)

Inductive io_event : Type :=
  | Makedirs (path : string)
  | WriteFile (path content : string)
  | Print (text : string).

Record World : Type := mkWorld {
  rng : Rng;
  trace : list io_event
}.

Definition IO (A : Type) : Type := World -> result A * World.

(** A file-system call. *)
Definition syscall (fs : io_event -> result unit) (e : io_event) : IO unit :=
  fun w => match fs e with
           | Ok _ => (Ok tt, mkWorld (rng w) (trace w ++ [e]))
           | Raise x => (Raise x, w)
           end.

(** [print(text)] *)
Definition print (text : string) : IO unit :=
  fun w => (Ok tt, mkWorld (rng w) (trace w ++ [Print text])).

(** A generator computation run on the world's generators. *)
Definition run {A : Type} (m : M A) : IO A :=
  fun w => match m (rng w) with
           | Ok (a, g) => (Ok a, mkWorld g (trace w))
           | Raise e => (Raise e, w)
           end.

Definition io_bind {A B : Type} (m : IO A) (k : A -> IO B) : IO B :=
  fun w => match m w with
           | (Ok a, w') => k a w'
           | (Raise e, w') => (Raise e, w')
           end.

Notation "x <<- m ;; k" := (io_bind m (fun x => k))
  (at level 61, m at next level, right associativity) : gen_scope.

Fixpoint for_each {A : Type} (body : A -> IO unit) (l : list A) : IO unit :=
  match l with
  | [] => fun w => (Ok tt, w)
  | a :: l' => _ <<- body a ;; for_each body l'
  end.

(** [os.path.join(a, b)] for a relative [b]. *)
Definition path_join (a b : string) : string :=
  match a with
  | EmptyString => b
  | _ => if String.eqb (substring (String.length a - 1) 1 a) "/"
         then (a ++ b)%string
         else (a ++ "/" ++ b)%string
  end.

(** [f"o{nb_operations}_c{nb_surgeons}_s{nb_rooms}{suffix}_instance_{i}.txt"] *)
Definition instance_filename (gl : Globals) (i : Z) : string :=
  let suffix : string :=
    if enable_setup_times gl then "_ST"%string else EmptyString in
  ("o" ++ str_int (nb_operations gl) ++ "_c" ++ str_int (nb_surgeons gl) ++
   "_s" ++ str_int (nb_rooms gl) ++ suffix ++ "_instance_" ++ str_int i ++
   ".txt")%string.

(** One turn of the loop over instances. *)
Definition export_instance (gl : Globals) (fs : io_event -> result unit)
    (output_folder : string) (i : Z) : IO unit :=
  instance_data <<- run (create_instance gl (nb_operations gl)
                           (nb_surgeons gl) (nb_rooms gl) default_Tmax) ;;
  let filename := instance_filename gl i in
  _ <<- syscall fs
          (WriteFile (path_join output_folder filename) instance_data) ;;
  print instance_data.

Definition generate_multiple_instances (gl : Globals)
    (fs : io_event -> result unit) (n : Z) (output_folder : option string)
  : IO unit :=
  match output_folder with
  | None => fun w => (Raise ValueError, w)
  | Some output_folder =>
      _ <<- syscall fs (Makedirs output_folder) ;;
      for_each (export_instance gl fs output_folder) (range n)
  end.

(** ** Run

    The module's last lines: the output directory is made under the
    working directory and one instance is exported to it. *)

Definition main (fs : io_event -> result unit) (cwd : string) : IO unit :=
  let output_dir := path_join cwd "generated_instances" in
  _ <<- syscall fs (Makedirs output_dir) ;;
  generate_multiple_instances module_globals fs 1 (Some output_dir).

(** ** Sample inputs

    Concrete generator states and settings on which the statements below
    are exercised. *)

Definition sample_rng : Rng :=
  mkRng (fun n => Z.of_nat n * 7919 * 2 ^ 50 + 12345) 0
        (fun n => (N.of_nat (n * 37 + 50), 3%positive)) 0.

(** The module's settings with [all_rooms_available = True]. *)
Definition all_rooms_globals : Globals := mkGlobals 2 1 3 true false true.

(** The module's settings with [enable_surgeon_schedule = True]. *)
Definition restricted_globals : Globals := mkGlobals 15 4 4 true true false.

(** Four operations and two surgeons, with [enable_setup_times = False]. *)
Definition no_setup_globals : Globals := mkGlobals 4 2 4 false false false.

(** ** Properties of the generated data *)

(** The four duration vectors describe the same operations, each with
    components in the ranges they are drawn from and a total that is their
    sum. *)
Definition durations_ok (d : Durations) : Prop :=
  List.length (TC d) = List.length (TP d) /\
  List.length (TN d) = List.length (TP d) /\
  List.length (TT d) = List.length (TP d) /\
  forall i : nat, (i < List.length (TP d))%nat ->
    5 <= nth i (TP d) 0 <= 30 /\
    1 <= nth i (TC d) 0 /\
    10 <= nth i (TN d) 0 <= 20 /\
    nth i (TT d) 0 = nth i (TP d) 0 + nth i (TC d) 0 + nth i (TN d) 0.

(** The round-robin assignment in closed form: surgeon [c] is eligible for
    operation [o] exactly when [c] is [o mod nb_surgeons]. *)
Definition round_robin (nb_surgeons nb_operations : Z) : list (list Z) :=
  map (fun c => map (fun o => if c =? o mod nb_surgeons then 1 else 0)
                    (range nb_operations))
      (range nb_surgeons).

(** Column [o] of a matrix and the sum of a vector. *)
Definition column (X : list (list Z)) (o : Z) : list Z :=
  map (fun row => nth (Z.to_nat o) row 0) X.

Definition sum (l : list Z) : Z := fold_right Z.add 0 l.

(** The position a Python index [i] denotes in a list of length [n]. *)
Definition norm (n i : Z) : Z := if i <? 0 then i + n else i.

(** What a cell of the type-transition table may hold: 0 on the diagonal
    and when setup times are off, and a value of [[0, max_setup_time]]
    anyway. *)
Definition transition_ok (gl : Globals) (max_setup_time t1 t2 v : Z) : Prop :=
  (t1 = t2 -> v = 0) /\
  (enable_setup_times gl = false -> v = 0) /\
  0 <= v <= max_setup_time.

(** The state [(T, type_by_operation)] of the loop that gives each operation
    its type, once the first [n] operations are done: [T] keeps its shape,
    every recorded type is -1 or a type of [[0, nb_types)], and operation
    [i < n] has the type of surgeon [i mod nb_surgeons]. *)
Definition types_state_ok (nb_surgeons nb_operations nb_types : Z)
    (type_by_surgeon : list Z) (n : nat)
    (st : list (list Z) * list Z) : Prop :=
  List.length (fst st) = Z.to_nat nb_operations /\
  Forall (fun line => List.length line = Z.to_nat nb_types) (fst st) /\
  List.length (snd st) = Z.to_nat nb_operations /\
  Forall (fun t => -1 <= t < nb_types) (snd st) /\
  forall i : nat, (i < n)%nat ->
    nth i (snd st) 0
    = nth (Z.to_nat (Z.of_nat i mod nb_surgeons)) type_by_surgeon 0.

(** The cell of the type-transition table that the types [t1] and [t2]
    select, a negative type counting from the end. *)
Definition entry (table : list (list Z)) (nb_types t1 t2 : Z) : Z :=
  nth (Z.to_nat (norm nb_types t2))
      (nth (Z.to_nat (norm nb_types t1)) table []) 0.

(** ** The instance text

    The data of one instance, and the text the specification describes for
    it: statements [NAME = literal; ] in the order index sets, blank
    separator, [A], [X], [F], [G], [TP], [TC], [TN], [TT], [T], [TD],
    [Tmax], [M = 999999], and a blank line at the end. *)

Record Instance : Type := mkInstance {
  set_O : list Z;
  set_C : list Z;
  set_S : list Z;
  mat_A : list (list Z);
  mat_X : list (list Z);
  vec_F : list Z;
  vec_G : list Z;
  durations : Durations;
  mat_T : list (list Z);
  mat_TD : list (list Z);
  const_Tmax : Z
}.

Definition layout_as_specified (i : Instance) : string :=
  (stmt "O" (str_list (set_O i)) ++
   stmt "C" (str_list (set_C i)) ++
   stmt "S" (str_list (set_S i)) ++
   nl ++
   stmt "A" (str_matrix (mat_A i)) ++
   stmt "X" (str_matrix (mat_X i)) ++
   stmt "F" (str_list (vec_F i)) ++
   stmt "G" (str_list (vec_G i)) ++
   stmt "TP" (str_list (TP (durations i))) ++
   stmt "TC" (str_list (TC (durations i))) ++
   stmt "TN" (str_list (TN (durations i))) ++
   stmt "TT" (str_list (TT (durations i))) ++
   stmt "T" (str_matrix (mat_T i)) ++
   stmt "TD" (str_matrix (mat_TD i)) ++
   stmt "Tmax" (str_int (const_Tmax i)) ++
   stmt "M" "999999" ++
   nl)%string.

(** One operation, one surgeon, one room. *)
Definition tiny_globals : Globals := mkGlobals 1 1 1 true false false.

(** The files a trace writes, in order, each with its content. *)
Fixpoint files_written (t : list io_event) : list (string * string) :=
  match t with
  | [] => []
  | WriteFile path content :: t' => (path, content) :: files_written t'
  | _ :: t' => files_written t'
  end.

(** The directories a trace creates. *)
Fixpoint dirs_made (t : list io_event) : list string :=
  match t with
  | [] => []
  | Makedirs path :: t' => path :: dirs_made t'
  | _ :: t' => dirs_made t'
  end.

(** A file system on which every call succeeds. *)
Definition io_always (_ : io_event) : result unit := Ok tt.

Definition sample_world : World := mkWorld sample_rng [].

(** ** Further properties of the generated data *)

(** The row of [T] for an operation of type [t]: 1 at [t], 0 elsewhere. *)
Definition one_hot (nb_types t : Z) : list Z :=
  map (fun k => if k =? t then 1 else 0) (range nb_types).

(** The rows of [T] once the first [n] operations are done: one-hot at the
    type of the surgeon for those, still all 0 for the others. *)
Definition types_rows_ok (nb_surgeons nb_operations nb_types : Z)
    (type_by_surgeon : list Z) (n : nat)
    (st : list (list Z) * list Z) : Prop :=
  forall i : nat, (i < Z.to_nat nb_operations)%nat ->
    nth i (fst st) [] =
    if (i <? n)%nat
    then one_hot nb_types
           (nth (Z.to_nat (Z.of_nat i mod nb_surgeons)) type_by_surgeon 0)
    else map (fun _ => 0) (range nb_types).

(** The module's settings with no surgeon, and with a negative surgeon
    count. *)
Definition no_surgeon_globals : Globals := mkGlobals 15 0 4 true false false.

Definition negative_surgeon_globals : Globals :=
  mkGlobals 3 (-2) 3 true false false.

(** What a trace prints, in order. *)
Fixpoint printed (t : list io_event) : list string :=
  match t with
  | [] => []
  | Print text :: t' => text :: printed t'
  | _ :: t' => printed t'
  end.


Definition io_never (_ : io_event) : result unit := Raise OSError.

Fixpoint has_nul (s : string) : bool :=
  match s with
  | EmptyString => false
  | String c s' => Ascii.eqb c zero || has_nul s'
  end.

Definition io_checks_nul (e : io_event) : result unit :=
  match e with
  | Makedirs path | WriteFile path _ =>
      if has_nul path then Raise ValueError else Ok tt
  | Print _ => Ok tt
  end.

(** A folder name with a NUL character in it. *)
Definition nul_folder : string := String "a" (String zero (String "b" EmptyString)).

(** The row of [A] in which only the last room is open. *)
Definition last_room_only (nb_rooms : Z) : list Z :=
  map (fun r => if r =? nb_rooms - 1 then 1 else 0) (range nb_rooms).

(** A cell of a 0/1 matrix. *)
Definition binary (x : Z) : Prop := x = 0 \/ x = 1.

(** Generators whose [random] tape counts 0, 1, 2, ... *)
Definition counting_rng : Rng :=
  mkRng (fun n => Z.of_nat n) 0 (fun _ => (0%N, 1%positive)) 0.

(** * Verification *)

(** ** Facts on the Python primitives *)

Lemma range_length (n : Z) : List.length (range n) = Z.to_nat n.
Proof. unfold range. now rewrite length_map, length_seq. Qed.

Lemma len_range (n : Z) : 0 <= n -> len (range n) = n.
Proof. intros H. unfold len. rewrite range_length. lia. Qed.

Lemma in_range (n x : Z) : In x (range n) <-> 0 <= x < n.
Proof.
  unfold range. rewrite in_map_iff. split.
  - intros [k [<- Hk]]. apply in_seq in Hk. lia.
  - intros H. exists (Z.to_nat x). split; [lia | apply in_seq; lia].
Qed.

Lemma range_nonpos (n : Z) : n <= 0 -> range n = [].
Proof. intros H. unfold range. now replace (Z.to_nat n) with 0%nat by lia. Qed.

Lemma range_snoc (n : Z) : 0 <= n -> range (n + 1) = range n ++ [n].
Proof.
  intros H. unfold range.
  replace (Z.to_nat (n + 1)) with (S (Z.to_nat n)) by lia.
  rewrite seq_S, map_app. simpl. now rewrite Z2Nat.id.
Qed.

Lemma range_of_nat_snoc (n : nat) :
  range (Z.of_nat (S n)) = range (Z.of_nat n) ++ [Z.of_nat n].
Proof.
  replace (Z.of_nat (S n)) with (Z.of_nat n + 1) by lia.
  apply range_snoc. lia.
Qed.

Lemma range_to_nat (n : Z) : range n = range (Z.of_nat (Z.to_nat n)).
Proof. unfold range. now rewrite Nat2Z.id. Qed.

Lemma nth_range (n : nat) (i : nat) (d : Z) :
  (i < n)%nat -> nth i (range (Z.of_nat n)) d = Z.of_nat i.
Proof.
  intros H. unfold range. rewrite Nat2Z.id.
  rewrite nth_indep with (d' := Z.of_nat 0) by now rewrite length_map, length_seq.
  rewrite map_nth, seq_nth; [reflexivity | assumption].
Qed.

(** A valid non-negative index reads the list at that position. *)
Lemma index_nth {A : Type} (l : list A) (i : Z) (d : A) :
  0 <= i < len l -> index l i = Ok (nth (Z.to_nat i) l d).
Proof.
  intros H. unfold index, len in *.
  destruct (Z.ltb_spec i 0); [lia |].
  destruct (Z.ltb_spec i 0); [lia |].
  destruct (Z.leb_spec (Z.of_nat (List.length l)) i); [lia |]. simpl.
  destruct (nth_error l (Z.to_nat i)) eqn:E.
  - now rewrite (nth_error_nth _ _ d E).
  - apply nth_error_None in E. lia.
Qed.

(** A valid negative index counts from the end. *)
Lemma index_neg {A : Type} (l : list A) (i : Z) (d : A) :
  - len l <= i < 0 -> index l i = Ok (nth (Z.to_nat (i + len l)) l d).
Proof.
  intros H. unfold index.
  destruct (Z.ltb_spec i 0) as [_ | Hi]; [| lia].
  destruct (Z.ltb_spec (i + len l) 0) as [Hn | _]; [lia |].
  destruct (Z.leb_spec (len l) (i + len l)) as [Hn | Hlt]; [lia |].
  cbn [orb].
  destruct (nth_error l (Z.to_nat (i + len l))) eqn:E.
  - now rewrite (nth_error_nth _ _ d E).
  - apply nth_error_None in E. unfold len in *. lia.
Qed.

Lemma assign_nth {A : Type} (l : list A) (i : Z) (a : A) :
  0 <= i < len l -> assign l i a = Ok (set_nth l (Z.to_nat i) a).
Proof.
  intros H. unfold assign, len in *.
  destruct (Z.ltb_spec i 0); [lia |].
  destruct (Z.ltb_spec i 0); [lia |].
  destruct (Z.leb_spec (Z.of_nat (List.length l)) i); [lia | reflexivity].
Qed.

Lemma set_nth_length {A : Type} (l : list A) (n : nat) (a : A) :
  List.length (set_nth l n a) = List.length l.
Proof.
  revert n. induction l as [| x l IH]; intros [| n]; simpl; auto.
Qed.

Lemma nth_set_nth {A : Type} (l : list A) (n i : nat) (a d : A) :
  (n < List.length l)%nat ->
  nth i (set_nth l n a) d = if Nat.eqb i n then a else nth i l d.
Proof.
  revert n i. induction l as [| x l IH]; intros n i H; simpl in H; [lia |].
  destruct n as [| n], i as [| i]; simpl; auto.
  apply IH. lia.
Qed.

Lemma foldR_app {S A : Type} (body : S -> A -> result S) (l1 l2 : list A) (s : S) :
  foldR body (l1 ++ l2) s = (s' <~ foldR body l1 s ;; foldR body l2 s').
Proof.
  revert s. induction l1 as [| a l1 IH]; intros s; simpl; [reflexivity |].
  destruct (body s a); simpl; auto.
Qed.

Lemma foldM_app {S A : Type} (body : S -> A -> M S) (l1 l2 : list A) (s : S) (g : Rng) :
  foldM body (l1 ++ l2) s g = (s' <- foldM body l1 s ;; foldM body l2 s') g.
Proof.
  revert s g. induction l1 as [| a l1 IH]; intros s g; simpl; [reflexivity |].
  unfold bind. destruct (body s a g) as [[s' g'] | e]; [| reflexivity].
  rewrite IH. reflexivity.
Qed.

(** A pure loop that appends [f a] at each turn builds [map f]. *)
Lemma foldR_snoc_map {A B : Type} (body : list B -> A -> result (list B))
    (f : A -> B) (l : list A) :
  (forall acc a, In a l -> body acc a = Ok (acc ++ [f a])) ->
  forall acc, foldR body l acc = Ok (acc ++ map f l).
Proof.
  induction l as [| a l IH]; intros H acc; simpl.
  - now rewrite app_nil_r.
  - rewrite H by now left. simpl. rewrite IH by (intros; apply H; now right).
    now rewrite <- app_assoc.
Qed.

(** ** Facts on the random draws *)

Lemma lt_spec (x y : Q) : lt x y = true <-> (x < y)%Q.
Proof. unfold lt, Qlt. apply Z.ltb_lt. Qed.

(** [random.uniform(0, 1)] reads one cell and lies in [[0, 1)]. *)
Lemma uniform01 (g : Rng) :
  exists u, Random.uniform 0 1 g = Ok (u, Random.advance_mt g) /\
            (0 <= u)%Q /\ (u < 1)%Q.
Proof.
  unfold Random.uniform, Random.random, bind, ret.
  eexists. split; [reflexivity |].
  set (k := mt_tape g (mt_pos g) mod 2 ^ 53).
  assert (Hk : 0 <= k < 2 ^ 53) by (apply Z.mod_pos_bound; reflexivity).
  assert (E : (0 + (1 - 0) * (k # 2 ^ 53) == k # 2 ^ 53)%Q) by ring.
  rewrite E. unfold Qle, Qlt. simpl Qnum. simpl Qden.
  change (Z.pos (2 ^ 53)) with (2 ^ 53). lia.
Qed.

Lemma randint_ok (a b : Z) (g : Rng) :
  a <= b ->
  exists x, Random.randint a b g = Ok (x, Random.advance_mt g) /\ a <= x <= b.
Proof.
  intros H. unfold Random.randint.
  destruct (Z.ltb_spec b a); [lia |].
  eexists. split; [reflexivity |].
  pose proof (Z.mod_pos_bound (mt_tape g (mt_pos g)) (b - a + 1)). lia.
Qed.

(** ** Room availability *)

Lemma foldM_cons {S A : Type} (body : S -> A -> M S) (a : A) (l : list A)
    (s : S) (g : Rng) :
  foldM body (a :: l) s g =
  match body s a g with
  | Ok (s', g') => foldM body l s' g'
  | Raise e => Raise e
  end.
Proof. reflexivity. Qed.

Lemma room_cell_forced (nb_rooms : Z) (p : Q) (row : list Z) (g : Rng) :
  room_cell nb_rooms p (row, true) (nb_rooms - 1) g = Ok ((row ++ [1], true), g).
Proof. unfold room_cell. now rewrite Z.eqb_refl. Qed.

Lemma room_cell_drawn (nb_rooms : Z) (p : Q) (row : list Z) (only_zeros : bool)
    (r : Z) (g : Rng) :
  (r =? nb_rooms - 1) && only_zeros = false ->
  exists u : Q,
    ((0 <= u)%Q /\ (u < 1)%Q) /\
    room_cell nb_rooms p (row, only_zeros) r g =
    Ok (if lt u p then (row ++ [1], false) else (row ++ [0], only_zeros),
        Random.advance_mt g).
Proof.
  intros H. unfold room_cell. rewrite H.
  destruct (uniform01 g) as (u & Eu & H0 & H1).
  exists u. repeat split; auto.
  unfold bind. rewrite Eu. now destruct (lt u p).
Qed.

(** The loop over rooms: one cell per room, at most one draw per cell, and
    a 1 in the row as soon as the last room has been seen. *)
Lemma room_cells (nb_rooms : Z) (p : Q) (rs : list Z) :
  forall (row : list Z) (only_zeros : bool) (g : Rng),
    (only_zeros = false -> In 1 row) ->
    exists row' only_zeros' g',
      foldM (room_cell nb_rooms p) rs (row, only_zeros) g
        = Ok ((row', only_zeros'), g') /\
      List.length row' = (List.length row + List.length rs)%nat /\
      (only_zeros' = false -> In 1 row') /\
      (In 1 row \/ In (nb_rooms - 1) rs -> In 1 row') /\
      (mt_pos g <= mt_pos g' <= mt_pos g + List.length rs)%nat /\
      np_pos g' = np_pos g.
Proof.
  induction rs as [| r rs IH]; intros row oz g Hinv.
  - exists row, oz, g. simpl. unfold ret.
    repeat split; try lia; auto. intros [H | []]; exact H.
  - rewrite foldM_cons.
    destruct ((r =? nb_rooms - 1) && oz) eqn:Elast.
    + apply andb_prop in Elast. destruct Elast as [Er ->].
      apply Z.eqb_eq in Er. subst r. rewrite room_cell_forced.
      destruct (IH (row ++ [1]) true g)
        as (row' & oz' & g' & E & Hl & Hz & H1 & Hp & Hn).
      { intros _. apply in_or_app. right. now left. }
      exists row', oz', g'. rewrite length_app in Hl. simpl in *.
      repeat split; try lia; auto.
      intros _. apply H1. left. apply in_or_app. right. now left.
    + destruct (room_cell_drawn nb_rooms p row oz r g Elast)
        as (u & _ & Eu).
      rewrite Eu. destruct (lt u p).
      * destruct (IH (row ++ [1]) false (Random.advance_mt g))
          as (row' & oz' & g' & E & Hl & Hz & H1 & Hp & Hn).
        { intros _. apply in_or_app. right. now left. }
        exists row', oz', g'. rewrite length_app in Hl. simpl in *.
        repeat split; try lia; auto.
        intros _. apply H1. left. apply in_or_app. right. now left.
      * destruct (IH (row ++ [0]) oz (Random.advance_mt g))
          as (row' & oz' & g' & E & Hl & Hz & H1 & Hp & Hn).
        { intros Hoz. apply in_or_app. left. auto. }
        exists row', oz', g'. rewrite length_app in Hl. simpl in *.
        repeat split; try lia; auto.
        intros [Hin | [Hr | Hin]].
        -- apply H1. left. apply in_or_app. now left.
        -- apply H1. left. apply in_or_app. left. apply Hinv.
           subst r. rewrite Z.eqb_refl in Elast. exact Elast.
        -- apply H1. now right.
Qed.

Lemma room_row_eq (nb_rooms : Z) (p : Q) (matrix : list (list Z)) (o : Z)
    (g : Rng) :
  room_row nb_rooms p matrix o g =
  match foldM (room_cell nb_rooms p) (range nb_rooms) ([], true) g with
  | Ok (st, g') => Ok (matrix ++ [fst st], g')
  | Raise e => Raise e
  end.
Proof. reflexivity. Qed.

(** The loop over operations always returns; with at least one room every
    row it appends has a 1. *)
Lemma room_rows (nb_rooms : Z) (p : Q) (os : list Z) :
  forall (matrix : list (list Z)) (g : Rng),
    exists rows g',
      foldM (room_row nb_rooms p) os matrix g = Ok (matrix ++ rows, g') /\
      List.length rows = List.length os /\
      Forall (fun row => List.length row = Z.to_nat nb_rooms /\
                         (1 <= nb_rooms -> In 1 row)) rows /\
      (mt_pos g <= mt_pos g'
         <= mt_pos g + List.length os * Z.to_nat nb_rooms)%nat /\
      np_pos g' = np_pos g.
Proof.
  induction os as [| o os IH]; intros matrix g.
  - exists [], g. simpl. unfold ret. rewrite app_nil_r.
    repeat split; auto; lia.
  - rewrite foldM_cons, room_row_eq.
    destruct (room_cells nb_rooms p (range nb_rooms) [] true g)
      as (row & oz & g1 & E & Hl & _ & H1 & Hp & Hn); [discriminate |].
    rewrite E. simpl fst.
    destruct (IH (matrix ++ [row]) g1) as (rows & g' & E' & Hl' & Hf & Hp' & Hn').
    exists (row :: rows), g'. rewrite E', <- app_assoc. simpl.
    rewrite range_length in *. simpl in Hl.
    repeat split; try lia; auto.
    constructor; [| exact Hf]. split; [lia |].
    intros Hr. apply H1. right. apply in_range. lia.
Qed.

(** With probability 1 every draw is a success: the row is all 1. *)
Lemma room_cells_all (nb_rooms : Z) (rs : list Z) :
  forall (row : list Z) (only_zeros : bool) (g : Rng),
    exists only_zeros' g',
      foldM (room_cell nb_rooms 1) rs (row, only_zeros) g
        = Ok ((row ++ repeat 1 (List.length rs), only_zeros'), g').
Proof.
  induction rs as [| r rs IH]; intros row oz g.
  - exists oz, g. simpl. unfold ret. now rewrite app_nil_r.
  - rewrite foldM_cons. simpl repeat.
    replace (row ++ 1 :: repeat 1 (List.length rs))
      with ((row ++ [1]) ++ repeat 1 (List.length rs))
      by now rewrite <- app_assoc.
    destruct ((r =? nb_rooms - 1) && oz) eqn:Elast.
    + apply andb_prop in Elast. destruct Elast as [Er ->].
      apply Z.eqb_eq in Er. subst r. rewrite room_cell_forced. apply IH.
    + destruct (room_cell_drawn nb_rooms 1 row oz r g Elast)
        as (u & [_ Hu] & Eu).
      rewrite Eu. apply lt_spec in Hu. rewrite Hu. apply IH.
Qed.

Lemma room_rows_all (nb_rooms : Z) (os : list Z) :
  forall (matrix : list (list Z)) (g : Rng),
    exists g',
      foldM (room_row nb_rooms 1) os matrix g
        = Ok (matrix ++ repeat (replicate nb_rooms 1) (List.length os), g').
Proof.
  induction os as [| o os IH]; intros matrix g.
  - exists g. simpl. unfold ret. now rewrite app_nil_r.
  - rewrite foldM_cons, room_row_eq.
    destruct (room_cells_all nb_rooms (range nb_rooms) [] true g)
      as (oz & g1 & E).
    rewrite E. simpl fst. rewrite range_length. simpl repeat.
    destruct (IH (matrix ++ [repeat 1 (Z.to_nat nb_rooms)]) g1) as (g' & E').
    exists g'. rewrite E', <- app_assoc. reflexivity.
Qed.

Lemma generate_room_availability_eq (gl : Globals) (nbo nbr : Z) (p : Q)
    (g : Rng) :
  generate_room_availability gl nbo nbr p g =
  match room_availability_matrix gl nbo nbr p g with
  | Ok (matrix, g') => Ok (stmt "A" (str_matrix matrix), g')
  | Raise e => Raise e
  end.
Proof.
  unfold generate_room_availability, bind, ret.
  now destruct (room_availability_matrix gl nbo nbr p g) as [[m g'] | e].
Qed.

(** C1: with at least one operation and one room, every row of the
    room-eligibility matrix of [generate_room_availability] contains a 1.
    The function always returns: a row is finished after one cell per room,
    and the whole matrix costs at most one draw per cell (nothing is drawn
    again). *)
Theorem room_rows_have_a_one (gl : Globals) (nb_operations nb_rooms : Z)
    (probability : Q) (g : Rng) :
  1 <= nb_operations -> 1 <= nb_rooms ->
  exists matrix g',
    room_availability_matrix gl nb_operations nb_rooms probability g
      = Ok (matrix, g') /\
    generate_room_availability gl nb_operations nb_rooms probability g
      = Ok (stmt "A" (str_matrix matrix), g') /\
    len matrix = nb_operations /\
    Forall (fun row => len row = nb_rooms /\ In 1 row) matrix /\
    Z.of_nat (mt_pos g') - Z.of_nat (mt_pos g) <= nb_operations * nb_rooms.
Proof.
  intros Ho Hr.
  rewrite generate_room_availability_eq. unfold room_availability_matrix.
  set (p := if all_rooms_available gl then 1%Q else probability).
  destruct (room_rows nb_rooms p (range nb_operations) [] g)
    as (rows & g' & E & Hl & Hf & Hp & _).
  exists rows, g'. simpl app in E. rewrite E.
  rewrite range_length in *.
  repeat split; auto.
  - unfold len. lia.
  - eapply Forall_impl; [| exact Hf]. cbv beta. intros row [Hlen Hin].
    split; [unfold len; lia | now apply Hin].
  - nia.
Qed.

Lemma room_rows_have_a_one_witness :
  exists matrix g',
    room_availability_matrix module_globals 15 4 default_probability sample_rng
      = Ok (matrix, g') /\
    generate_room_availability module_globals 15 4 default_probability
                               sample_rng
      = Ok (stmt "A" (str_matrix matrix), g') /\
    len matrix = 15 /\
    Forall (fun row => len row = 4 /\ In 1 row) matrix /\
    Z.of_nat (mt_pos g') - Z.of_nat (mt_pos sample_rng) <= 15 * 4.
Proof.
  apply (room_rows_have_a_one module_globals 15 4 default_probability
                              sample_rng); lia.
Defined.

(** C5: when [all_rooms_available] is set the probability argument is
    replaced by 1 and the room-eligibility matrix is 1 everywhere; with two
    operations and three rooms the statement printed is
    [A = [[1, 1, 1], [1, 1, 1]]; ]. *)
Theorem all_rooms_available_all_ones (gl : Globals)
    (nb_operations nb_rooms : Z) (probability : Q) (g : Rng) :
  all_rooms_available gl = true ->
  room_availability_matrix gl nb_operations nb_rooms probability g
    = room_availability_matrix gl nb_operations nb_rooms 1 g /\
  (exists g',
     room_availability_matrix gl nb_operations nb_rooms probability g
       = Ok (replicate nb_operations (replicate nb_rooms 1), g')) /\
  (exists g',
     generate_room_availability gl 2 3 probability g
       = Ok ("A = [[1, 1, 1], [1, 1, 1]]; " ++ nl, g')%string).
Proof.
  intros Hall.
  split; [| split].
  - unfold room_availability_matrix. now rewrite Hall.
  - unfold room_availability_matrix. rewrite Hall.
    destruct (room_rows_all nb_rooms (range nb_operations) [] g) as (g' & E).
    exists g'. rewrite E, range_length. reflexivity.
  - rewrite generate_room_availability_eq.
    unfold room_availability_matrix. rewrite Hall.
    destruct (room_rows_all 3 (range 2) [] g) as (g' & E).
    exists g'. rewrite E. reflexivity.
Qed.

Lemma all_rooms_available_all_ones_witness :
  room_availability_matrix all_rooms_globals 2 3 default_probability sample_rng
    = room_availability_matrix all_rooms_globals 2 3 1 sample_rng /\
  (exists g',
     room_availability_matrix all_rooms_globals 2 3 default_probability
                              sample_rng
       = Ok (replicate 2 (replicate 3 1), g')) /\
  (exists g',
     generate_room_availability all_rooms_globals 2 3 default_probability
                                sample_rng
       = Ok ("A = [[1, 1, 1], [1, 1, 1]]; " ++ nl, g')%string).
Proof.
  apply (all_rooms_available_all_ones all_rooms_globals 2 3
                                      default_probability sample_rng).
  reflexivity.
Defined.

(** ** Surgeon working hours *)

Lemma randint_2_2 (g : Rng) : Random.randint 2 2 g = Ok (2, Random.advance_mt g).
Proof.
  unfold Random.randint. change (2 <? 2) with false. cbv beta iota.
  change (2 - 2 + 1) with 1. now rewrite Z.mod_1_r.
Qed.

Lemma surgeon_window_full_day (m : Z) (F G : list Z) (c : Z) (g : Rng) :
  surgeon_window m (F, G) c g = Ok ((F ++ [0], G ++ [m]), Random.advance_mt g).
Proof. unfold surgeon_window, bind. now rewrite randint_2_2. Qed.

Lemma surgeon_windows (m : Z) (cs : list Z) :
  forall (F G : list Z) (g : Rng),
    exists g',
      foldM (surgeon_window m) cs (F, G) g
        = Ok ((F ++ repeat 0 (List.length cs),
               G ++ repeat m (List.length cs)), g').
Proof.
  induction cs as [| c cs IH]; intros F G g.
  - exists g. simpl. unfold ret. now rewrite !app_nil_r.
  - rewrite foldM_cons, surgeon_window_full_day.
    destruct (IH (F ++ [0]) (G ++ [m]) (Random.advance_mt g)) as (g' & E).
    exists g'. rewrite E. simpl. now rewrite <- !app_assoc.
Qed.

Lemma index_replicate {A : Type} (n i : Z) (a : A) :
  0 <= i < n -> index (replicate n a) i = Ok a.
Proof.
  intros H. unfold replicate.
  rewrite index_nth with (d := a).
  - now rewrite nth_repeat.
  - unfold len. rewrite repeat_length. lia.
Qed.

(** C6: [generate_surgeon_time_windows] gives every surgeon the start time
    0 and as end time the day length, 800 when [enable_surgeon_schedule] is
    set and 10000 otherwise; so each window has its start before its end. *)
Theorem surgeon_windows_full_day (gl : Globals) (nb_surgeons : Z) (g : Rng) :
  exists F G g',
    surgeon_time_windows gl nb_surgeons g = Ok ((F, G), g') /\
    generate_surgeon_time_windows gl nb_surgeons g
      = Ok (stmt "F" (str_list F) ++ stmt "G" (str_list G), g')%string /\
    forall c, 0 <= c < nb_surgeons ->
      exists start_time end_time,
        index F c = Ok start_time /\ index G c = Ok end_time /\
        start_time = 0 /\
        end_time = (if enable_surgeon_schedule gl then 800 else 10000) /\
        start_time < end_time.
Proof.
  destruct (surgeon_windows (max_time gl) (range nb_surgeons) [] [] g)
    as (g' & E).
  simpl app in E. rewrite range_length in E.
  exists (replicate nb_surgeons 0), (replicate nb_surgeons (max_time gl)), g'.
  split; [exact E |]. split.
  - unfold generate_surgeon_time_windows, bind. unfold surgeon_time_windows in E.
    unfold surgeon_time_windows. now rewrite E.
  - intros c Hc. exists 0, (max_time gl).
    rewrite !index_replicate by assumption.
    repeat split; unfold max_time; destruct (enable_surgeon_schedule gl); lia.
Qed.

Lemma surgeon_windows_full_day_witness :
  exists F G g',
    surgeon_time_windows restricted_globals 4 sample_rng = Ok ((F, G), g') /\
    generate_surgeon_time_windows restricted_globals 4 sample_rng
      = Ok (stmt "F" (str_list F) ++ stmt "G" (str_list G), g')%string /\
    exists start_time end_time,
      index F 3 = Ok start_time /\ index G 3 = Ok end_time /\
      start_time = 0 /\ end_time = 800 /\ start_time < end_time.
Proof.
  destruct (surgeon_windows_full_day restricted_globals 4 sample_rng)
    as (F & G & g' & E & Es & H).
  exists F, G, g'. split; [exact E |]. split; [exact Es |].
  apply (H 3). lia.
Defined.

(** ** Operation durations *)

Lemma lognormal_int_pos (g : Rng) :
  exists x, Random.lognormal 4 (1 # 2) g = Ok (x, Random.advance_np g) /\
            1 <= int (x + 1)%Q.
Proof.
  unfold Random.lognormal. destruct (np_tape g (np_pos g)) as [n d].
  eexists. split; [reflexivity |].
  unfold int, Qplus. simpl Qnum. simpl Qden.
  rewrite Pos.mul_1_r, Z.mul_1_r.
  apply Z.quot_le_lower_bound; lia.
Qed.

Lemma nth_snoc_eq {A : Type} (l : list A) (x d : A) (n : nat) :
  n = List.length l -> nth n (l ++ [x]) d = x.
Proof. intros ->. apply nth_middle. Qed.

Lemma operation_duration_ok (d : Durations) (o : Z) (g : Rng) :
  durations_ok d ->
  exists d' g', operation_duration d o g = Ok (d', g') /\ durations_ok d' /\
                List.length (TP d') = S (List.length (TP d)).
Proof.
  intros (Hc & Hn & Ht & H).
  unfold operation_duration, bind.
  destruct (randint_ok 5 30 g) as (prep & -> & Hprep); [lia |].
  destruct (lognormal_int_pos (Random.advance_mt g)) as (x & -> & Hsurg).
  destruct (randint_ok 10 20 (Random.advance_np (Random.advance_mt g)))
    as (clean & -> & Hclean); [lia |].
  unfold ret. eexists. eexists. split; [reflexivity |].
  unfold durations_ok. simpl. rewrite !length_app. simpl.
  split; [| repeat split; lia].
  split; [lia |]. split; [lia |]. split; [lia |].
  intros i Hi.
  destruct (Nat.eq_dec i (List.length (TP d))) as [-> | Hne].
  - rewrite !nth_snoc_eq by lia. lia.
  - rewrite !app_nth1 by lia. apply H. lia.
Qed.

Lemma operation_durations_fold (os : list Z) :
  forall (d : Durations) (g : Rng),
    durations_ok d ->
    exists d' g',
      foldM operation_duration os d g = Ok (d', g') /\ durations_ok d' /\
      List.length (TP d') = (List.length (TP d) + List.length os)%nat.
Proof.
  induction os as [| o os IH]; intros d g Hd.
  - exists d, g. simpl. unfold ret.
    split; [reflexivity |]. split; [assumption | lia].
  - rewrite foldM_cons.
    destruct (operation_duration_ok d o g Hd) as (d1 & g1 & -> & Hd1 & Hl1).
    destruct (IH d1 g1 Hd1) as (d' & g' & E & Hd' & Hl').
    exists d', g'. simpl.
    split; [assumption |]. split; [assumption | lia].
Qed.

(** C4: for every operation, the total that [generate_operation_durations]
    emits is the sum of its preparation, surgery and cleaning durations,
    and the three components are positive. *)
Theorem durations_total_is_sum (nb_operations : Z) (g : Rng) :
  exists d g',
    operation_durations nb_operations g = Ok (d, g') /\
    generate_operation_durations nb_operations g
      = Ok (stmt "TP" (str_list (TP d)) ++ stmt "TC" (str_list (TC d)) ++
            stmt "TN" (str_list (TN d)) ++ stmt "TT" (str_list (TT d)),
            g')%string /\
    forall o, 0 <= o < nb_operations ->
      exists prep surg clean total,
        index (TP d) o = Ok prep /\ index (TC d) o = Ok surg /\
        index (TN d) o = Ok clean /\ index (TT d) o = Ok total /\
        total = prep + surg + clean /\
        0 < prep /\ 0 < surg /\ 0 < clean.
Proof.
  destruct (operation_durations_fold (range nb_operations)
              (mkDurations [] [] [] []) g) as (d & g' & E & Hd & Hl).
  { unfold durations_ok. simpl. repeat split; lia. }
  exists d, g'. split; [exact E |]. split.
  - unfold generate_operation_durations, bind, operation_durations.
    now rewrite E.
  - intros o Ho. destruct Hd as (Hc & Hn & Ht & H).
    simpl in Hl. rewrite range_length in Hl.
    destruct (H (Z.to_nat o)) as (Hp & Hs & Hk & Hsum); [lia |].
    exists (nth (Z.to_nat o) (TP d) 0), (nth (Z.to_nat o) (TC d) 0),
           (nth (Z.to_nat o) (TN d) 0), (nth (Z.to_nat o) (TT d) 0).
    rewrite !(index_nth _ o 0) by (unfold len; lia).
    repeat split; auto; lia.
Qed.

Lemma durations_total_is_sum_witness :
  exists d g',
    operation_durations 15 sample_rng = Ok (d, g') /\
    exists prep surg clean total,
      index (TP d) 7 = Ok prep /\ index (TC d) 7 = Ok surg /\
      index (TN d) 7 = Ok clean /\ index (TT d) 7 = Ok total /\
      total = prep + surg + clean /\
      0 < prep /\ 0 < surg /\ 0 < clean.
Proof.
  destruct (durations_total_is_sum 15 sample_rng) as (d & g' & E & _ & H).
  exists d, g'. split; [exact E |]. apply (H 7). lia.
Defined.

(** ** Surgeon eligibility *)

Lemma nth_map_range {A : Type} (f : Z -> A) (n : Z) (i : nat) (d : A) :
  (i < Z.to_nat n)%nat -> nth i (map f (range n)) d = f (Z.of_nat i).
Proof.
  intros H.
  rewrite nth_indep with (d' := f 0) by now rewrite length_map, range_length.
  rewrite map_nth. f_equal. rewrite range_to_nat. now apply nth_range.
Qed.

Lemma surgeon_cell_eq (cur : Z) (matrix : list (list Z)) (c : nat) :
  (c < List.length matrix)%nat ->
  surgeon_cell cur matrix (Z.of_nat c) =
  Ok (set_nth matrix c
        (nth c matrix [] ++ [if Z.of_nat c =? cur then 1 else 0])).
Proof.
  intros H. unfold surgeon_cell.
  rewrite index_nth with (d := []) by (unfold len; lia). simpl rbind.
  rewrite assign_nth by (unfold len; lia). now rewrite Nat2Z.id.
Qed.

(** The loop over surgeons appends one cell to each row it visits. *)
Lemma surgeon_cells (cur : Z) (n : nat) :
  forall (k : nat) (matrix : list (list Z)),
    (k + n <= List.length matrix)%nat ->
    exists matrix',
      foldR (surgeon_cell cur) (map Z.of_nat (seq k n)) matrix = Ok matrix' /\
      List.length matrix' = List.length matrix /\
      forall i : nat,
        nth i matrix' [] =
        if (k <=? i)%nat && (i <? k + n)%nat
        then nth i matrix [] ++ [if Z.of_nat i =? cur then 1 else 0]
        else nth i matrix [].
Proof.
  induction n as [| n IH]; intros k matrix H.
  - exists matrix. simpl. repeat split. intros i.
    destruct (Nat.leb_spec k i), (Nat.ltb_spec i (k + 0)); simpl; auto; lia.
  - simpl. rewrite surgeon_cell_eq by lia. simpl rbind.
    destruct (IH (S k)
                (set_nth matrix k
                   (nth k matrix [] ++ [if Z.of_nat k =? cur then 1 else 0])))
      as (matrix' & E & Hl & Hn).
    { rewrite set_nth_length. lia. }
    exists matrix'. rewrite set_nth_length in Hl.
    split; [exact E |]. split; [exact Hl |].
    intros i. rewrite Hn. rewrite nth_set_nth by lia.
    destruct (Nat.leb_spec (S k) i), (Nat.ltb_spec i (S k + n)),
             (Nat.leb_spec k i), (Nat.ltb_spec i (k + S n)),
             (Nat.eqb_spec i k); simpl; subst; auto; lia.
Qed.

Lemma round_robin_length (nb_surgeons nb_operations : Z) :
  List.length (round_robin nb_surgeons nb_operations) = Z.to_nat nb_surgeons.
Proof. unfold round_robin. now rewrite length_map, range_length. Qed.

Lemma nth_round_robin (nb_surgeons nb_operations : Z) (c : nat) :
  (c < Z.to_nat nb_surgeons)%nat ->
  nth c (round_robin nb_surgeons nb_operations) [] =
  map (fun o => if Z.of_nat c =? o mod nb_surgeons then 1 else 0)
      (range nb_operations).
Proof. intros H. unfold round_robin. now rewrite nth_map_range. Qed.

(** One turn of the loop over operations adds column [n]. *)
Lemma surgeon_column_round_robin (nb_surgeons n : Z) :
  nb_surgeons <> 0 -> 0 <= n ->
  surgeon_column nb_surgeons (round_robin nb_surgeons n) n =
  Ok (round_robin nb_surgeons (n + 1)).
Proof.
  intros Hs Hn. unfold surgeon_column, mod_.
  destruct (Z.eqb_spec nb_surgeons 0); [contradiction |]. simpl rbind.
  destruct (surgeon_cells (n mod nb_surgeons) (Z.to_nat nb_surgeons) 0
              (round_robin nb_surgeons n)) as (matrix' & E & Hl & Hnth).
  { rewrite round_robin_length. lia. }
  unfold range at 1. rewrite E. f_equal.
  apply nth_ext with (d := []) (d' := []).
  - now rewrite Hl, !round_robin_length.
  - intros i Hi. rewrite Hl, round_robin_length in Hi.
    rewrite Hnth. simpl (0 <=? i)%nat.
    destruct (Nat.ltb_spec i (0 + Z.to_nat nb_surgeons)); [| lia]. simpl andb.
    cbv iota. rewrite !nth_round_robin by assumption.
    rewrite range_snoc, map_app by assumption. reflexivity.
Qed.

Lemma surgeon_columns (nb_surgeons : Z) (n : nat) :
  nb_surgeons <> 0 ->
  foldR (surgeon_column nb_surgeons) (range (Z.of_nat n))
        (round_robin nb_surgeons 0)
  = Ok (round_robin nb_surgeons (Z.of_nat n)).
Proof.
  intros Hs. induction n as [| n IH]; [reflexivity |].
  rewrite range_of_nat_snoc, foldR_app, IH. simpl.
  rewrite surgeon_column_round_robin by lia.
  now replace (Z.of_nat n + 1) with (Z.of_nat (S n)) by lia.
Qed.

Lemma round_robin_to_nat (nb_surgeons nb_operations : Z) :
  round_robin nb_surgeons nb_operations =
  round_robin nb_surgeons (Z.of_nat (Z.to_nat nb_operations)).
Proof. unfold round_robin. now rewrite <- range_to_nat. Qed.

(** With a non-zero surgeon count the function returns the round-robin
    matrix. *)
Lemma surgeon_eligibility_matrix_eq (nb_surgeons nb_operations : Z) :
  nb_surgeons <> 0 ->
  surgeon_eligibility_matrix nb_surgeons nb_operations =
  Ok (round_robin nb_surgeons nb_operations).
Proof.
  intros Hs. unfold surgeon_eligibility_matrix.
  rewrite (range_to_nat nb_operations), (round_robin_to_nat _ nb_operations).
  now apply surgeon_columns.
Qed.

(** With no surgeon the first operation divides by zero; without
    operations the matrix is empty. *)
Lemma surgeon_eligibility_matrix_zero (nb_operations : Z) :
  surgeon_eligibility_matrix 0 nb_operations =
  if 0 <? nb_operations then Raise ZeroDivisionError else Ok [].
Proof.
  unfold surgeon_eligibility_matrix.
  destruct (Z.ltb_spec 0 nb_operations) as [H | H].
  - unfold range at 1. destruct (Z.to_nat nb_operations) eqn:E; [lia |].
    reflexivity.
  - now rewrite (range_nonpos nb_operations).
Qed.

Lemma sum_app (l1 l2 : list Z) : sum (l1 ++ l2) = sum l1 + sum l2.
Proof.
  unfold sum. induction l1 as [| x l1 IH]; simpl; [reflexivity |].
  rewrite IH. lia.
Qed.

(** An indicator of one point of [range n] sums to 1 over it. *)
Lemma sum_indicator (k : Z) (n : nat) :
  sum (map (fun c => if c =? k then 1 else 0) (range (Z.of_nat n)))
  = if (0 <=? k) && (k <? Z.of_nat n) then 1 else 0.
Proof.
  induction n as [| n IH].
  - simpl. destruct (Z.leb_spec 0 k), (Z.ltb_spec k 0); simpl; lia.
  - rewrite range_of_nat_snoc, map_app, sum_app, IH.
    cbn [map sum fold_right]. rewrite Z.add_0_r.
    destruct (Z.leb_spec 0 k), (Z.ltb_spec k (Z.of_nat n)),
             (Z.ltb_spec k (Z.of_nat (S n))), (Z.eqb_spec (Z.of_nat n) k);
      cbn [andb]; lia.
Qed.

Lemma column_round_robin (nb_surgeons nb_operations o : Z) :
  0 <= o < nb_operations ->
  column (round_robin nb_surgeons nb_operations) o =
  map (fun c => if c =? o mod nb_surgeons then 1 else 0) (range nb_surgeons).
Proof.
  intros H. unfold column, round_robin. rewrite map_map.
  apply map_ext. intros c.
  rewrite nth_map_range by lia. now rewrite Z2Nat.id by lia.
Qed.

Lemma index_round_robin (nb_surgeons nb_operations c o : Z) :
  0 <= c < nb_surgeons -> 0 <= o < nb_operations ->
  exists row,
    index (round_robin nb_surgeons nb_operations) c = Ok row /\
    len row = nb_operations /\
    index row o = Ok (if c =? o mod nb_surgeons then 1 else 0).
Proof.
  intros Hc Ho. eexists. split; [| split].
  - rewrite index_nth with (d := []).
    + rewrite nth_round_robin by lia. rewrite Z2Nat.id by lia. reflexivity.
    + unfold len. rewrite round_robin_length. lia.
  - unfold len. rewrite length_map, range_length. lia.
  - rewrite index_nth with (d := 0).
    + rewrite nth_map_range by lia. now rewrite Z2Nat.id by lia.
    + unfold len. rewrite length_map, range_length. lia.
Qed.

(** C2: with at least one surgeon, [generate_surgeon_eligibility] returns a
    matrix whose every column sums to 1 and in which operation [o] has its
    1 at surgeon [o mod nb_surgeons] and 0 elsewhere.  The function reads
    no generator: run inside an instance it leaves the random state as it
    found it, whatever that state is. *)
Theorem surgeon_eligibility_round_robin (nb_surgeons nb_operations : Z) :
  1 <= nb_surgeons ->
  exists X,
    generate_surgeon_eligibility nb_surgeons nb_operations
      = Ok (X, stmt "X" (str_matrix X)) /\
    (forall g : Rng,
       lift (generate_surgeon_eligibility nb_surgeons nb_operations) g
         = Ok ((X, stmt "X" (str_matrix X)), g)) /\
    len X = nb_surgeons /\
    forall o, 0 <= o < nb_operations ->
      sum (column X o) = 1 /\
      forall c, 0 <= c < nb_surgeons ->
        exists row,
          index X c = Ok row /\
          index row o = Ok (if c =? o mod nb_surgeons then 1 else 0).
Proof.
  intros Hs.
  assert (E : generate_surgeon_eligibility nb_surgeons nb_operations
              = Ok (round_robin nb_surgeons nb_operations,
                    stmt "X" (str_matrix
                                (round_robin nb_surgeons nb_operations)))).
  { unfold generate_surgeon_eligibility.
    rewrite surgeon_eligibility_matrix_eq by lia. reflexivity. }
  exists (round_robin nb_surgeons nb_operations).
  split; [exact E |]. split; [| split].
  - intros g. unfold lift. now rewrite E.
  - unfold len. rewrite round_robin_length. lia.
  - intros o Ho. split.
    + rewrite column_round_robin by assumption.
      rewrite (range_to_nat nb_surgeons), sum_indicator.
      pose proof (Z.mod_pos_bound o nb_surgeons).
      destruct (Z.leb_spec 0 (o mod nb_surgeons)),
               (Z.ltb_spec (o mod nb_surgeons)
                           (Z.of_nat (Z.to_nat nb_surgeons)));
        cbn [andb]; lia.
    + intros c Hc.
      destruct (index_round_robin nb_surgeons nb_operations c o Hc Ho)
        as (row & Er & _ & Eo).
      exists row. now split.
Qed.

Lemma surgeon_eligibility_round_robin_witness :
  exists X,
    generate_surgeon_eligibility 4 15 = Ok (X, stmt "X" (str_matrix X)) /\
    len X = 4 /\
    sum (column X 6) = 1 /\
    exists row, index X 2 = Ok row /\ index row 6 = Ok 1.
Proof.
  destruct (surgeon_eligibility_round_robin 4 15) as (X & E & _ & Hl & H);
    [lia |].
  exists X. split; [exact E |]. split; [exact Hl |].
  destruct (H 6) as (Hsum & Hc); [lia |].
  split; [exact Hsum |]. apply (Hc 2). lia.
Defined.

(** ** Operation types and setup times *)

Lemma mapM_cons {A B : Type} (f : A -> M B) (a : A) (l : list A) (g : Rng) :
  mapM f (a :: l) g =
  match f a g with
  | Ok (b, g1) => match mapM f l g1 with
                  | Ok (bs, g2) => Ok (b :: bs, g2)
                  | Raise e => Raise e
                  end
  | Raise e => Raise e
  end.
Proof.
  simpl. unfold bind, ret. destruct (f a g) as [[b g1] | e]; [| reflexivity].
  now destruct (mapM f l g1) as [[bs g2] | e].
Qed.

(** A comprehension whose every element is produced returns a list that is
    pointwise related to the one it runs over. *)
Lemma mapM_Forall2 {A B : Type} (f : A -> M B) (P : A -> B -> Prop)
    (l : list A) :
  (forall a g, In a l -> exists b g', f a g = Ok (b, g') /\ P a b) ->
  forall g, exists bs g', mapM f l g = Ok (bs, g') /\ Forall2 P l bs.
Proof.
  induction l as [| a l IH]; intros H g.
  - exists [], g. split; [reflexivity | constructor].
  - rewrite mapM_cons.
    destruct (H a g) as (b & g1 & -> & Hb); [now left |].
    destruct (IH (fun a g Hin => H a g (or_intror Hin)) g1)
      as (bs & g2 & -> & Hbs).
    exists (b :: bs), g2. split; [reflexivity | now constructor].
Qed.

Lemma Forall2_nth {A B : Type} (P : A -> B -> Prop) (l : list A) (l' : list B)
    (d : A) (d' : B) (i : nat) :
  Forall2 P l l' -> (i < List.length l)%nat -> P (nth i l d) (nth i l' d').
Proof.
  intros H. revert i. induction H as [| a b l l' Hab H IH]; intros i Hi.
  - simpl in Hi. lia.
  - destruct i as [| i]; simpl; [exact Hab |]. apply IH. simpl in Hi. lia.
Qed.

Lemma Forall2_range_nth {B : Type} (P : Z -> B -> Prop) (n : Z) (l : list B)
    (d : B) :
  Forall2 P (range n) l ->
  List.length l = Z.to_nat n /\
  forall i, 0 <= i < n -> P i (nth (Z.to_nat i) l d).
Proof.
  intros H. split.
  - rewrite <- (Forall2_length H). apply range_length.
  - intros i Hi.
    pose proof (Forall2_nth P (range n) l 0 d (Z.to_nat i) H) as Hn.
    rewrite range_to_nat, nth_range in Hn by lia.
    rewrite (Z2Nat.id i) in Hn by lia. apply Hn.
    rewrite range_length. lia.
Qed.

(** The specialty of each surgeon is a type of [[0, nb_types)]. *)
Lemma type_by_surgeon_ok (nb_types : Z) (cs : list Z) (g : Rng) :
  1 <= nb_types ->
  exists type_by_surgeon g',
    mapM (fun _ => Random.randint 0 (nb_types - 1)) cs g
      = Ok (type_by_surgeon, g') /\
    List.length type_by_surgeon = List.length cs /\
    Forall (fun t => 0 <= t < nb_types) type_by_surgeon.
Proof.
  intros Ht.
  destruct (mapM_Forall2 (fun _ => Random.randint 0 (nb_types - 1))
              (fun _ t => 0 <= t < nb_types) cs) with (g := g)
    as (tbs & g' & E & H).
  { intros a g0 _. destruct (randint_ok 0 (nb_types - 1) g0) as (x & Ex & Hx);
      [lia |].
    exists x, (Random.advance_mt g0). split; [exact Ex | lia]. }
  exists tbs, g'. split; [exact E |]. split.
  - symmetry. exact (Forall2_length H).
  - clear E. induction H; constructor; auto.
Qed.

Lemma transition_cell_ok (gl : Globals) (max_setup_time t1 t2 : Z) (g : Rng) :
  0 <= max_setup_time ->
  exists v g',
    transition_cell gl max_setup_time t1 t2 g = Ok (v, g') /\
    transition_ok gl max_setup_time t1 t2 v.
Proof.
  intros Hm. unfold transition_cell, transition_ok.
  destruct (Z.eqb_spec t1 t2) as [E | E]; simpl orb.
  - exists 0, g. split; [reflexivity |]. repeat split; lia.
  - destruct (enable_setup_times gl); simpl negb.
    + destruct (randint_ok 0 max_setup_time g Hm) as (x & Ex & Hx).
      exists x, (Random.advance_mt g). split; [exact Ex |].
      repeat split; try lia; intros; try contradiction; discriminate.
    + exists 0, g. split; [reflexivity |]. repeat split; lia.
Qed.

(** The type-transition table is square, and each cell is as
    [transition_ok] says. *)
Lemma type_transition_time_ok (gl : Globals) (max_setup_time nb_types : Z)
    (g : Rng) :
  0 <= max_setup_time ->
  exists table g',
    type_transition_time gl max_setup_time nb_types g = Ok (table, g') /\
    List.length table = Z.to_nat nb_types /\
    forall t1, 0 <= t1 < nb_types ->
      List.length (nth (Z.to_nat t1) table []) = Z.to_nat nb_types /\
      forall t2, 0 <= t2 < nb_types ->
        transition_ok gl max_setup_time t1 t2
          (nth (Z.to_nat t2) (nth (Z.to_nat t1) table []) 0).
Proof.
  intros Hm. unfold type_transition_time.
  destruct (mapM_Forall2
              (fun t1 => mapM (transition_cell gl max_setup_time t1)
                              (range nb_types))
              (fun t1 line =>
                 Forall2 (transition_ok gl max_setup_time t1)
                         (range nb_types) line)
              (range nb_types)) with (g := g) as (table & g' & E & H).
  { intros t1 g0 _.
    apply mapM_Forall2. intros t2 g1 _.
    now apply transition_cell_ok. }
  exists table, g'. split; [exact E |].
  apply (Forall2_range_nth _ _ _ []) in H. destruct H as [Hl H].
  split; [exact Hl |]. intros t1 H1.
  apply (Forall2_range_nth _ _ _ 0). now apply H.
Qed.

Lemma assign_type_cons (X : list (list Z)) (tbs : list Z) (o c : Z)
    (cs : list Z) (st : list (list Z) * list Z) :
  assign_type X tbs o (c :: cs) st =
  (row <~ index X c ;;
   e <~ index row o ;;
   if e =? 1 then
     t <~ index tbs c ;;
     T_o <~ index (fst st) o ;;
     T_o <~ assign T_o t 1 ;;
     T <~ assign (fst st) o T_o ;;
     type_by_operation <~ assign (snd st) o t ;;
     Ok (T, type_by_operation)
   else assign_type X tbs o cs st).
Proof. destruct st as [T tbo]. reflexivity. Qed.

Lemma Forall_set_nth {A : Type} (P : A -> Prop) (l : list A) (n : nat) (a : A) :
  Forall P l -> P a -> Forall P (set_nth l n a).
Proof.
  intros H Ha. revert n. induction H as [| x l Hx H IH]; intros n.
  - destruct n; constructor.
  - destruct n as [| n]; simpl; constructor; auto.
Qed.

Lemma Forall_nth_default {A : Type} (P : A -> Prop) (l : list A) (i : nat)
    (d : A) :
  Forall P l -> (i < List.length l)%nat -> P (nth i l d).
Proof.
  intros H Hi. rewrite Forall_forall in H. apply H. now apply nth_In.
Qed.

Lemma foldR_id {S A : Type} (body : S -> A -> result S) (l : list A) (s : S) :
  (forall s a, body s a = Ok s) -> foldR body l s = Ok s.
Proof.
  intros H. induction l as [| a l IH]; simpl; [reflexivity |].
  now rewrite H.
Qed.

Section TypeOfOperation.

Variables nb_surgeons nb_operations nb_types : Z.
Variable type_by_surgeon : list Z.
Hypothesis surgeons_pos : 1 <= nb_surgeons.
Hypothesis types_pos : 1 <= nb_types.
Hypothesis type_by_surgeon_length :
  List.length type_by_surgeon = Z.to_nat nb_surgeons.
Hypothesis type_by_surgeon_range :
  Forall (fun t => 0 <= t < nb_types) type_by_surgeon.

(** The scan stops at surgeon [o mod nb_surgeons] and records its type. *)
Lemma assign_type_scan (o : Z) (st : list (list Z) * list Z) (m : nat) :
  0 <= o < nb_operations ->
  types_state_ok nb_surgeons nb_operations nb_types type_by_surgeon m st ->
  forall (n k : nat),
    (k + n = Z.to_nat nb_surgeons)%nat ->
    Z.of_nat k <= o mod nb_surgeons ->
    let t := nth (Z.to_nat (o mod nb_surgeons)) type_by_surgeon 0 in
    assign_type (round_robin nb_surgeons nb_operations) type_by_surgeon o
                (map Z.of_nat (seq k n)) st
    = Ok (set_nth (fst st) (Z.to_nat o)
            (set_nth (nth (Z.to_nat o) (fst st) []) (Z.to_nat t) 1),
          set_nth (snd st) (Z.to_nat o) t).
Proof.
  intros Ho (HlT & HT & Hlt & _ & _).
  pose proof (Z.mod_pos_bound o nb_surgeons) as Hmod.
  induction n as [| n IH]; intros k Hk Hle t; [lia |].
  cbn [seq map]. rewrite assign_type_cons.
  destruct (index_round_robin nb_surgeons nb_operations (Z.of_nat k) o)
    as (row & -> & _ & Eo); [lia | lia |].
  cbn [rbind]. rewrite Eo. cbn [rbind].
  destruct (Z.eqb_spec (Z.of_nat k) (o mod nb_surgeons)) as [E | E].
  - change (1 =? 1) with true. cbv iota.
    assert (Ht : 0 <= t < nb_types).
    { apply (Forall_nth_default (fun t => 0 <= t < nb_types));
        [assumption | lia]. }
    rewrite index_nth with (d := 0) by (unfold len; lia). cbn [rbind].
    rewrite E. fold t.
    rewrite index_nth with (d := []) by (unfold len; lia). cbn [rbind].
    assert (Hrow : List.length (nth (Z.to_nat o) (fst st) [])
                   = Z.to_nat nb_types).
    { apply (Forall_nth_default
               (fun line => List.length line = Z.to_nat nb_types));
        [assumption | lia]. }
    rewrite assign_nth by (unfold len; lia). cbn [rbind].
    rewrite assign_nth by (unfold len; lia). cbn [rbind].
    rewrite assign_nth by (unfold len; lia). reflexivity.
  - change (0 =? 1) with false. cbv iota. apply IH; lia.
Qed.

(** One turn of the loop over operations keeps the state well formed and
    settles the type of operation [n]. *)
Lemma assign_type_step (n : nat) (st : list (list Z) * list Z) :
  (n < Z.to_nat nb_operations)%nat ->
  types_state_ok nb_surgeons nb_operations nb_types type_by_surgeon n st ->
  exists st',
    assign_type (round_robin nb_surgeons nb_operations) type_by_surgeon
                (Z.of_nat n) (range nb_surgeons) st = Ok st' /\
    types_state_ok nb_surgeons nb_operations nb_types type_by_surgeon
                   (S n) st'.
Proof.
  intros Hn Hst.
  pose proof (Z.mod_pos_bound (Z.of_nat n) nb_surgeons) as Hmod.
  eexists. split.
  - unfold range.
    apply (assign_type_scan (Z.of_nat n) st n); [lia | assumption | lia | lia].
  - destruct Hst as (HlT & HT & Hlt & Ht & Hi).
    set (t := nth (Z.to_nat (Z.of_nat n mod nb_surgeons)) type_by_surgeon 0).
    assert (Htr : 0 <= t < nb_types).
    { apply (Forall_nth_default (fun t => 0 <= t < nb_types));
        [assumption | lia]. }
    unfold types_state_ok. cbn [fst snd]. rewrite !set_nth_length.
    split; [assumption |]. split.
    { apply Forall_set_nth; [assumption |]. rewrite set_nth_length.
      apply (Forall_nth_default
               (fun line => List.length line = Z.to_nat nb_types));
        [assumption | lia]. }
    split; [assumption |]. split.
    { apply Forall_set_nth; [assumption | lia]. }
    intros i Hlt'. rewrite nth_set_nth by lia. rewrite Nat2Z.id.
    destruct (Nat.eqb_spec i n) as [-> | Hne]; [reflexivity |].
    apply Hi. lia.
Qed.

Lemma assign_type_loop (st0 : list (list Z) * list Z) (n : nat) :
  (n <= Z.to_nat nb_operations)%nat ->
  types_state_ok nb_surgeons nb_operations nb_types type_by_surgeon 0 st0 ->
  exists st,
    foldR (fun st o =>
             assign_type (round_robin nb_surgeons nb_operations)
                         type_by_surgeon o (range nb_surgeons) st)
          (range (Z.of_nat n)) st0 = Ok st /\
    types_state_ok nb_surgeons nb_operations nb_types type_by_surgeon n st.
Proof.
  intros Hn H0. induction n as [| n IH].
  - exists st0. split; [reflexivity | assumption].
  - destruct IH as (st & E & Hst); [lia |].
    destruct (assign_type_step n st) as (st' & E' & Hst'); [lia | assumption |].
    exists st'. split; [| assumption].
    rewrite range_of_nat_snoc, foldR_app, E. cbn [rbind foldR].
    now rewrite E'.
Qed.

End TypeOfOperation.

Lemma index_norm {A : Type} (l : list A) (i : Z) (d : A) :
  - len l <= i < len l ->
  index l i = Ok (nth (Z.to_nat (norm (len l) i)) l d).
Proof.
  intros H. unfold norm. destruct (Z.ltb_spec i 0).
  - apply index_neg. lia.
  - apply index_nth. lia.
Qed.

Lemma norm_range (n i : Z) : -1 <= i < n -> 1 <= n -> 0 <= norm n i < n.
Proof. intros H Hn. unfold norm. destruct (Z.ltb_spec i 0); lia. Qed.

Lemma initial_types_state_ok (nb_surgeons nb_operations nb_types : Z)
    (type_by_surgeon : list Z) :
  0 <= nb_types ->
  types_state_ok nb_surgeons nb_operations nb_types type_by_surgeon 0
    (map (fun _ => map (fun _ => 0) (range nb_types)) (range nb_operations),
     replicate nb_operations (-1)).
Proof.
  intros Ht. unfold types_state_ok, replicate. cbn [fst snd].
  rewrite length_map, range_length, repeat_length.
  split; [reflexivity |]. split.
  { apply Forall_forall. intros line Hin. apply in_map_iff in Hin.
    destruct Hin as (o & <- & _). now rewrite length_map, range_length. }
  split; [reflexivity |]. split.
  { apply Forall_forall. intros t Hin. apply repeat_spec in Hin. lia. }
  intros i Hi. lia.
Qed.

Lemma type_of_operation_range (nb_operations nb_types : Z)
    (type_by_operation : list Z) (o : Z) :
  List.length type_by_operation = Z.to_nat nb_operations ->
  Forall (fun t => -1 <= t < nb_types) type_by_operation ->
  0 <= o < nb_operations ->
  -1 <= nth (Z.to_nat o) type_by_operation 0 < nb_types.
Proof.
  intros Hl Hr Ho.
  apply (Forall_nth_default (fun t => -1 <= t < nb_types));
    [assumption | lia].
Qed.

Section SetupTimes.

Variables nb_operations nb_types : Z.
Variable type_by_operation : list Z.
Variable table : list (list Z).
Hypothesis types_pos : 1 <= nb_types.
Hypothesis type_by_operation_length :
  List.length type_by_operation = Z.to_nat nb_operations.
Hypothesis type_by_operation_range :
  Forall (fun t => -1 <= t < nb_types) type_by_operation.
Hypothesis table_length : List.length table = Z.to_nat nb_types.
Hypothesis table_square :
  forall t1, 0 <= t1 < nb_types ->
    List.length (nth (Z.to_nat t1) table []) = Z.to_nat nb_types.

Lemma setup_cell_eq (o1 o2 : Z) (row : list Z) :
  0 <= o1 < nb_operations -> 0 <= o2 < nb_operations ->
  setup_cell type_by_operation table o1 row o2 =
  Ok (row ++ [entry table nb_types
                    (nth (Z.to_nat o1) type_by_operation 0)
                    (nth (Z.to_nat o2) type_by_operation 0)]).
Proof.
  intros H1 H2. unfold setup_cell, entry.
  pose proof (type_of_operation_range nb_operations nb_types
                type_by_operation o1 type_by_operation_length
                type_by_operation_range H1) as Ht1.
  pose proof (type_of_operation_range nb_operations nb_types
                type_by_operation o2 type_by_operation_length
                type_by_operation_range H2) as Ht2.
  pose proof (norm_range nb_types _ Ht1 types_pos) as Hn1.
  pose proof (norm_range nb_types _ Ht2 types_pos) as Hn2.
  rewrite (index_nth type_by_operation o1 0) by (unfold len; lia).
  cbn [rbind].
  rewrite (index_nth type_by_operation o2 0) by (unfold len; lia).
  cbn [rbind].
  assert (Hlen : len table = nb_types) by (unfold len; lia).
  rewrite (index_norm table _ []) by lia. cbn [rbind]. rewrite Hlen.
  assert (Hline : len (nth (Z.to_nat
                              (norm nb_types
                                 (nth (Z.to_nat o1) type_by_operation 0)))
                           table []) = nb_types).
  { unfold len. rewrite table_square by lia. lia. }
  rewrite (index_norm _ _ 0) by lia. cbn [rbind]. now rewrite Hline.
Qed.

(** The setup-time matrix reads the type-transition table at the types of
    the two operations. *)
Lemma setup_rows :
  foldR (setup_row nb_operations type_by_operation table)
        (range nb_operations) []
  = Ok (map (fun o1 =>
               map (fun o2 =>
                      entry table nb_types
                            (nth (Z.to_nat o1) type_by_operation 0)
                            (nth (Z.to_nat o2) type_by_operation 0))
                   (range nb_operations))
            (range nb_operations)).
Proof.
  rewrite foldR_snoc_map with
    (f := fun o1 =>
            map (fun o2 =>
                   entry table nb_types
                         (nth (Z.to_nat o1) type_by_operation 0)
                         (nth (Z.to_nat o2) type_by_operation 0))
                (range nb_operations)); [reflexivity |].
  intros TD o1 H1. apply in_range in H1. unfold setup_row.
  rewrite foldR_snoc_map with
    (f := fun o2 =>
            entry table nb_types
                  (nth (Z.to_nat o1) type_by_operation 0)
                  (nth (Z.to_nat o2) type_by_operation 0)); [reflexivity |].
  intros row o2 H2. apply in_range in H2. now apply setup_cell_eq.
Qed.

End SetupTimes.

Lemma len_round_robin (nb_surgeons nb_operations : Z) :
  range (len (round_robin nb_surgeons nb_operations)) = range nb_surgeons.
Proof.
  unfold len. rewrite round_robin_length. symmetry. apply range_to_nat.
Qed.

(** The loop that types the operations, on the round-robin matrix: it
    returns, and with a surgeon to find, operation [o] has the type of
    surgeon [o mod nb_surgeons]. *)
Lemma type_by_operation_ok (nb_surgeons nb_operations nb_types : Z)
    (type_by_surgeon : list Z) :
  1 <= nb_types ->
  List.length type_by_surgeon = Z.to_nat nb_surgeons ->
  Forall (fun t => 0 <= t < nb_types) type_by_surgeon ->
  exists st,
    foldR (fun st o =>
             assign_type (round_robin nb_surgeons nb_operations)
                         type_by_surgeon o (range nb_surgeons) st)
          (range nb_operations)
          (map (fun _ => map (fun _ => 0) (range nb_types))
               (range nb_operations),
           replicate nb_operations (-1)) = Ok st /\
    List.length (snd st) = Z.to_nat nb_operations /\
    Forall (fun t => -1 <= t < nb_types) (snd st) /\
    (1 <= nb_surgeons ->
     forall o, 0 <= o < nb_operations ->
       nth (Z.to_nat o) (snd st) 0
       = nth (Z.to_nat (o mod nb_surgeons)) type_by_surgeon 0).
Proof.
  intros Ht Hl Hr.
  pose proof (initial_types_state_ok nb_surgeons nb_operations nb_types
                type_by_surgeon ltac:(lia)) as H0.
  destruct (Z_le_gt_dec 1 nb_surgeons) as [Hs | Hs].
  - destruct (assign_type_loop nb_surgeons nb_operations nb_types
                type_by_surgeon Hs Ht Hl Hr _ (Z.to_nat nb_operations)
                (Nat.le_refl _) H0) as (st & E & (_ & _ & Hlt & Hrt & Hi)).
    rewrite <- range_to_nat in E.
    exists st. split; [exact E |]. split; [exact Hlt |].
    split; [exact Hrt |]. intros _ o Ho.
    rewrite Hi by lia. now rewrite Z2Nat.id by lia.
  - eexists. split.
    + rewrite (range_nonpos nb_surgeons) by lia. now apply foldR_id.
    + destruct H0 as (_ & _ & Hlt & Hrt & _). cbn [snd] in *.
      split; [exact Hlt |]. split; [exact Hrt |]. intros; lia.
Qed.

(** [types_and_setup_times] on the round-robin matrix returns, and each
    cell of [TD] is the cell of a well-formed type-transition table that
    the types of its two operations select. *)
Lemma types_and_setup_times_ok (gl : Globals)
    (nb_operations nb_surgeons max_setup_time nb_types : Z) (g : Rng) :
  1 <= nb_types -> 0 <= max_setup_time ->
  exists T cell g',
    types_and_setup_times gl nb_operations
      (round_robin nb_surgeons nb_operations) max_setup_time nb_types g
      = Ok ((T, map (fun o1 => map (cell o1) (range nb_operations))
                    (range nb_operations)), g') /\
    forall o1 o2, 0 <= o1 < nb_operations -> 0 <= o2 < nb_operations ->
      0 <= cell o1 o2 <= max_setup_time /\
      (enable_setup_times gl = false -> cell o1 o2 = 0) /\
      (o1 = o2 -> cell o1 o2 = 0) /\
      (1 <= nb_surgeons -> o1 mod nb_surgeons = o2 mod nb_surgeons ->
       cell o1 o2 = 0).
Proof.
  intros Ht Hm. unfold types_and_setup_times. rewrite len_round_robin.
  destruct (type_by_surgeon_ok nb_types (range nb_surgeons) g Ht)
    as (tbs & g1 & Etbs & Hl & Hr).
  rewrite range_length in Hl.
  destruct (type_by_operation_ok nb_surgeons nb_operations nb_types tbs
              Ht Hl Hr) as ([T tbo] & Est & Hlo & Hro & Hty).
  cbn [snd] in *.
  destruct (type_transition_time_ok gl max_setup_time nb_types g1 Hm)
    as (table & g2 & Etab & Hlt & Htab).
  pose proof (setup_rows nb_operations nb_types tbo table Ht Hlo Hro Hlt
                (fun t1 H1 => proj1 (Htab t1 H1))) as ETD.
  unfold bind. rewrite Etbs. unfold lift at 1. rewrite Est.
  rewrite Etab. unfold lift. rewrite ETD. unfold ret.
  exists T,
    (fun o1 o2 => entry table nb_types (nth (Z.to_nat o1) tbo 0)
                        (nth (Z.to_nat o2) tbo 0)), g2.
  split; [reflexivity |].
  intros o1 o2 H1 H2.
  pose proof (type_of_operation_range nb_operations nb_types tbo o1
                Hlo Hro H1) as Ht1.
  pose proof (type_of_operation_range nb_operations nb_types tbo o2
                Hlo Hro H2) as Ht2.
  pose proof (norm_range nb_types _ Ht1 Ht) as Hn1.
  pose proof (norm_range nb_types _ Ht2 Ht) as Hn2.
  unfold entry.
  destruct (Htab _ Hn1) as [_ Hcell].
  destruct (Hcell _ Hn2) as (Hd & Hoff & Hb).
  split; [exact Hb |]. split; [exact Hoff |]. split.
  - intros ->. now apply Hd.
  - intros Hs Hmod. apply Hd.
    rewrite !Hty by assumption. now rewrite Hmod.
Qed.

(** Reading a matrix that is given cell by cell. *)
Lemma index_cells (cell : Z -> Z -> Z) (n o1 o2 : Z) :
  0 <= o1 < n -> 0 <= o2 < n ->
  exists line,
    index (map (fun o1 => map (cell o1) (range n)) (range n)) o1 = Ok line /\
    index line o2 = Ok (cell o1 o2).
Proof.
  intros H1 H2. eexists. split.
  - rewrite index_nth with (d := []).
    + rewrite nth_map_range by lia. rewrite Z2Nat.id by lia. reflexivity.
    + unfold len. rewrite length_map, range_length. lia.
  - rewrite index_nth with (d := 0).
    + rewrite nth_map_range by lia. rewrite Z2Nat.id by lia. reflexivity.
    + unfold len. rewrite length_map, range_length. lia.
Qed.

Lemma map_const_range {A : Type} (a : A) (n : Z) :
  map (fun _ => a) (range n) = replicate n a.
Proof.
  unfold range, replicate. rewrite map_map.
  induction (Z.to_nat n) as [| k IH] using nat_ind; [reflexivity |].
  rewrite seq_S, map_app, IH. simpl.
  change [a] with (repeat a 1). rewrite <- repeat_app.
  now rewrite Nat.add_1_r.
Qed.

(** A matrix whose every cell is 0 is the zero matrix. *)
Lemma cells_zero (cell : Z -> Z -> Z) (n : Z) :
  (forall o1 o2, 0 <= o1 < n -> 0 <= o2 < n -> cell o1 o2 = 0) ->
  map (fun o1 => map (cell o1) (range n)) (range n)
  = replicate n (replicate n 0).
Proof.
  intros H. rewrite <- !map_const_range.
  apply map_ext_in. intros o1 H1. apply in_range in H1.
  apply map_ext_in. intros o2 H2. apply in_range in H2. now apply H.
Qed.

(** What [generate_surgeon_eligibility] returns, when it returns, is the
    round-robin matrix and its statement. *)
Lemma generate_surgeon_eligibility_inv (nb_surgeons nb_operations : Z)
    (X : list (list Z)) (matrix_X : string) :
  generate_surgeon_eligibility nb_surgeons nb_operations = Ok (X, matrix_X) ->
  X = round_robin nb_surgeons nb_operations /\
  matrix_X = stmt "X" (str_matrix X) /\
  (nb_surgeons <> 0 \/ nb_operations <= 0).
Proof.
  unfold generate_surgeon_eligibility.
  destruct (Z.eq_dec nb_surgeons 0) as [-> | Hs].
  - rewrite surgeon_eligibility_matrix_zero.
    destruct (Z.ltb_spec 0 nb_operations); [discriminate |].
    cbn [rbind]. intros E. injection E as <- <-.
    repeat split. now right.
  - rewrite surgeon_eligibility_matrix_eq by assumption.
    cbn [rbind]. intros E. injection E as <- <-.
    repeat split. now left.
Qed.

Lemma generate_surgeon_eligibility_ok (nb_surgeons nb_operations : Z) :
  nb_surgeons <> 0 \/ nb_operations <= 0 ->
  generate_surgeon_eligibility nb_surgeons nb_operations
  = Ok (round_robin nb_surgeons nb_operations,
        stmt "X" (str_matrix (round_robin nb_surgeons nb_operations))).
Proof.
  intros H. unfold generate_surgeon_eligibility.
  destruct (Z.eq_dec nb_surgeons 0) as [-> | Hs].
  - rewrite surgeon_eligibility_matrix_zero.
    destruct (Z.ltb_spec 0 nb_operations); [lia | reflexivity].
  - now rewrite surgeon_eligibility_matrix_eq by assumption.
Qed.

Lemma generate_types_and_setup_times_eq (gl : Globals) (nb_operations : Z)
    (X : list (list Z)) (max_setup_time nb_types : Z) (g : Rng) :
  generate_types_and_setup_times gl nb_operations X max_setup_time nb_types g
  = match types_and_setup_times gl nb_operations X max_setup_time nb_types g
    with
    | Ok ((T, TD), g') =>
        Ok (stmt "T" (str_matrix T) ++ stmt "TD" (str_matrix TD), g')%string
    | Raise e => Raise e
    end.
Proof.
  unfold generate_types_and_setup_times, bind.
  destruct (types_and_setup_times gl nb_operations X max_setup_time nb_types g)
    as [[[T TD] g'] | e]; reflexivity.
Qed.

(** C3: in every instance that is generated, that is for every eligibility
    matrix [generate_surgeon_eligibility] returns, the setup-time matrix
    [TD] of [generate_types_and_setup_times] has [TD[o][o] = 0] for every
    operation [o]; and when [enable_setup_times] is off [TD] is the zero
    matrix. *)
Theorem setup_times_zero_diagonal (gl : Globals)
    (nb_operations nb_surgeons max_setup_time nb_types : Z)
    (X : list (list Z)) (matrix_X : string) (g : Rng) :
  1 <= nb_types -> 0 <= max_setup_time ->
  generate_surgeon_eligibility nb_surgeons nb_operations = Ok (X, matrix_X) ->
  exists T TD g',
    types_and_setup_times gl nb_operations X max_setup_time nb_types g
      = Ok ((T, TD), g') /\
    generate_types_and_setup_times gl nb_operations X max_setup_time
                                   nb_types g
      = Ok (stmt "T" (str_matrix T) ++ stmt "TD" (str_matrix TD), g')%string /\
    (forall o, 0 <= o < nb_operations ->
       exists line, index TD o = Ok line /\ index line o = Ok 0) /\
    (enable_setup_times gl = false ->
     TD = replicate nb_operations (replicate nb_operations 0)).
Proof.
  intros Ht Hm HX.
  apply generate_surgeon_eligibility_inv in HX. destruct HX as (-> & _ & _).
  destruct (types_and_setup_times_ok gl nb_operations nb_surgeons
              max_setup_time nb_types g Ht Hm) as (T & cell & g' & E & H).
  eexists. eexists. eexists. split; [exact E |]. split; [| split].
  - rewrite generate_types_and_setup_times_eq. now rewrite E.
  - intros o Ho.
    destruct (index_cells cell nb_operations o o Ho Ho) as (line & El & Ec).
    exists line. split; [exact El |]. rewrite Ec. f_equal.
    destruct (H o o Ho Ho) as (_ & _ & Hd & _). now apply Hd.
  - intros Hoff. apply cells_zero. intros o1 o2 H1 H2.
    destruct (H o1 o2 H1 H2) as (_ & Hz & _). now apply Hz.
Qed.

Lemma setup_times_zero_diagonal_witness :
  exists T TD g',
    types_and_setup_times no_setup_globals 4 (round_robin 2 4) 30 4 sample_rng
      = Ok ((T, TD), g') /\
    (exists line, index TD 3 = Ok line /\ index line 3 = Ok 0) /\
    TD = replicate 4 (replicate 4 0).
Proof.
  destruct (setup_times_zero_diagonal no_setup_globals 4 2 30 4
              (round_robin 2 4) (stmt "X" (str_matrix (round_robin 2 4)))
              sample_rng)
    as (T & TD & g' & E & _ & Hd & Hz); [lia | lia | reflexivity |].
  exists T, TD, g'. split; [exact E |]. split.
  - apply (Hd 3). lia.
  - apply Hz. reflexivity.
Defined.

(** C8: with three operations and one surgeon the eligibility matrix is
    the single row [[1, 1, 1]], and the setup-time matrix is the 3x3 zero
    matrix whatever [enable_setup_times] says: the three operations are in
    the same class modulo 1, so they get the type of the one surgeon, and
    the table is 0 between a type and itself. *)
Theorem one_surgeon_three_operations (gl : Globals) (g : Rng) :
  generate_surgeon_eligibility 1 3
    = Ok ([[1; 1; 1]], ("X = [[1, 1, 1]]; " ++ nl)%string) /\
  exists T g',
    types_and_setup_times gl 3 [[1; 1; 1]] 30 4 g
      = Ok ((T, [[0; 0; 0]; [0; 0; 0]; [0; 0; 0]]), g') /\
    generate_types_and_setup_times gl 3 [[1; 1; 1]] 30 4 g
      = Ok (stmt "T" (str_matrix T) ++
            "TD = [[0, 0, 0], [0, 0, 0], [0, 0, 0]]; " ++ nl, g')%string.
Proof.
  split; [reflexivity |].
  destruct (types_and_setup_times_ok gl 3 1 30 4 g) as (T & cell & g' & E & H);
    [lia | lia |].
  rewrite cells_zero in E.
  - exists T, g'. change (round_robin 1 3) with [[1; 1; 1]] in E.
    split; [exact E |].
    rewrite generate_types_and_setup_times_eq. now rewrite E.
  - intros o1 o2 H1 H2. destruct (H o1 o2 H1 H2) as (_ & _ & _ & Hs).
    apply Hs; [lia |]. now rewrite !Z.mod_1_r.
Qed.

(** C10: with at least one surgeon, [TD[o1][o2] = 0] for every two
    operations that are congruent modulo the surgeon count, whether or not
    setup times are enabled: both have the type of the same surgeon. *)
Theorem setup_times_zero_same_surgeon (gl : Globals)
    (nb_operations nb_surgeons max_setup_time nb_types : Z) (g : Rng) :
  1 <= nb_surgeons -> 1 <= nb_types -> 0 <= max_setup_time ->
  exists X matrix_X T TD g',
    generate_surgeon_eligibility nb_surgeons nb_operations
      = Ok (X, matrix_X) /\
    types_and_setup_times gl nb_operations X max_setup_time nb_types g
      = Ok ((T, TD), g') /\
    forall o1 o2,
      0 <= o1 < nb_operations -> 0 <= o2 < nb_operations ->
      o1 mod nb_surgeons = o2 mod nb_surgeons ->
      exists line, index TD o1 = Ok line /\ index line o2 = Ok 0.
Proof.
  intros Hs Ht Hm.
  destruct (types_and_setup_times_ok gl nb_operations nb_surgeons
              max_setup_time nb_types g Ht Hm) as (T & cell & g' & E & H).
  eexists. eexists. eexists. eexists. eexists.
  split; [apply generate_surgeon_eligibility_ok; lia |].
  split; [exact E |].
  intros o1 o2 H1 H2 Hmod.
  destruct (index_cells cell nb_operations o1 o2 H1 H2) as (line & El & Ec).
  exists line. split; [exact El |]. rewrite Ec. f_equal.
  destruct (H o1 o2 H1 H2) as (_ & _ & _ & Hsame). now apply Hsame.
Qed.

Lemma setup_times_zero_same_surgeon_witness :
  exists X matrix_X T TD g',
    generate_surgeon_eligibility 4 15 = Ok (X, matrix_X) /\
    types_and_setup_times module_globals 15 X 30 4 sample_rng
      = Ok ((T, TD), g') /\
    exists line, index TD 2 = Ok line /\ index line 10 = Ok 0.
Proof.
  destruct (setup_times_zero_same_surgeon module_globals 15 4 30 4 sample_rng)
    as (X & sx & T & TD & g' & EX & E & H); [lia | lia | lia |].
  exists X, sx, T, TD, g'. split; [exact EX |]. split; [exact E |].
  apply (H 2 10); [lia | lia | reflexivity].
Defined.

(** ** The instance text *)

Lemma string_app_assoc (a b c : string) :
  ((a ++ b) ++ c = a ++ (b ++ c))%string.
Proof. induction a as [| x a IH]; simpl; [reflexivity | now rewrite IH]. Qed.

Lemma generate_surgeon_time_windows_eq (gl : Globals) (nb_surgeons : Z)
    (g : Rng) :
  generate_surgeon_time_windows gl nb_surgeons g =
  match surgeon_time_windows gl nb_surgeons g with
  | Ok ((F, G), g') =>
      Ok (stmt "F" (str_list F) ++ stmt "G" (str_list G), g')%string
  | Raise e => Raise e
  end.
Proof.
  unfold generate_surgeon_time_windows, bind.
  destruct (surgeon_time_windows gl nb_surgeons g) as [[[F G] g'] | e];
    reflexivity.
Qed.

Lemma generate_operation_durations_eq (nb_operations : Z) (g : Rng) :
  generate_operation_durations nb_operations g =
  match operation_durations nb_operations g with
  | Ok (d, g') =>
      Ok (stmt "TP" (str_list (TP d)) ++ stmt "TC" (str_list (TC d)) ++
          stmt "TN" (str_list (TN d)) ++ stmt "TT" (str_list (TT d)),
          g')%string
  | Raise e => Raise e
  end.
Proof.
  unfold generate_operation_durations, bind.
  destruct (operation_durations nb_operations g) as [[d g'] | e]; reflexivity.
Qed.

Lemma room_availability_matrix_total (gl : Globals)
    (nb_operations nb_rooms : Z) (p : Q) (g : Rng) :
  exists A g', room_availability_matrix gl nb_operations nb_rooms p g
               = Ok (A, g').
Proof.
  unfold room_availability_matrix.
  destruct (room_rows nb_rooms (if all_rooms_available gl then 1%Q else p)
              (range nb_operations) [] g) as (rows & g' & E & _).
  exists rows, g'. exact E.
Qed.

Lemma surgeon_time_windows_total (gl : Globals) (nb_surgeons : Z) (g : Rng) :
  exists F G g', surgeon_time_windows gl nb_surgeons g = Ok ((F, G), g').
Proof.
  destruct (surgeon_windows (max_time gl) (range nb_surgeons) [] [] g)
    as (g' & E).
  eexists. eexists. exists g'. exact E.
Qed.

Lemma operation_durations_total (nb_operations : Z) (g : Rng) :
  exists d g', operation_durations nb_operations g = Ok (d, g').
Proof.
  destruct (operation_durations_fold (range nb_operations)
              (mkDurations [] [] [] []) g) as (d & g' & E & _).
  { unfold durations_ok. simpl. repeat split; lia. }
  exists d, g'. exact E.
Qed.

(** C7, as the code has it: whenever the surgeon count is not 0 (or there
    is no operation) [create_instance] returns a text that starts with a
    blank line and goes on with the statements in the order index sets
    [O], [C], [S], blank separator, [A], [X], [F], [G], [TP], [TC], [TN],
    [TT], [T], [TD], [Tmax], [M = 999999], blank line; the literals are
    the data the generators produce one after the other. *)
Theorem create_instance_layout (gl : Globals)
    (nb_operations nb_surgeons nb_rooms Tmax : Z) (g : Rng) :
  nb_surgeons <> 0 \/ nb_operations <= 0 ->
  exists A F G d T TD g1 g2 g3 g',
    room_availability_matrix gl nb_operations nb_rooms default_probability g
      = Ok (A, g1) /\
    surgeon_time_windows gl nb_surgeons g1 = Ok ((F, G), g2) /\
    operation_durations nb_operations g2 = Ok (d, g3) /\
    types_and_setup_times gl nb_operations
      (round_robin nb_surgeons nb_operations) 30 4 g3 = Ok ((T, TD), g') /\
    create_instance gl nb_operations nb_surgeons nb_rooms Tmax g
      = Ok (nl ++
            layout_as_specified
              (mkInstance (range nb_operations) (range nb_surgeons)
                 (range nb_rooms) A (round_robin nb_surgeons nb_operations)
                 F G d T TD Tmax),
            g')%string.
Proof.
  intros Hs.
  destruct (room_availability_matrix_total gl nb_operations nb_rooms
              default_probability g) as (A & g1 & EA).
  destruct (surgeon_time_windows_total gl nb_surgeons g1)
    as (F & G & g2 & EW).
  destruct (operation_durations_total nb_operations g2) as (d & g3 & ED).
  destruct (types_and_setup_times_ok gl nb_operations nb_surgeons 30 4 g3)
    as (T & cell & g' & ET & _); [lia | lia |].
  exists A, F, G, d, T. eexists. exists g1, g2, g3, g'.
  split; [exact EA |]. split; [exact EW |]. split; [exact ED |].
  split; [exact ET |].
  unfold create_instance, bind.
  rewrite generate_room_availability_eq, EA.
  unfold lift. rewrite (generate_surgeon_eligibility_ok _ _ Hs).
  rewrite generate_surgeon_time_windows_eq, EW.
  rewrite generate_operation_durations_eq, ED.
  rewrite generate_types_and_setup_times_eq, ET.
  unfold ret, layout_as_specified, define_sets. cbn [append].
  cbn [set_O set_C set_S mat_A mat_X vec_F vec_G durations mat_T mat_TD
       const_Tmax].
  f_equal. f_equal. now rewrite !string_app_assoc.
Qed.

Lemma create_instance_layout_witness :
  exists A F G d T TD g1 g2 g3 g',
    room_availability_matrix module_globals 15 4 default_probability
                             sample_rng = Ok (A, g1) /\
    surgeon_time_windows module_globals 4 g1 = Ok ((F, G), g2) /\
    operation_durations 15 g2 = Ok (d, g3) /\
    types_and_setup_times module_globals 15 (round_robin 4 15) 30 4 g3
      = Ok ((T, TD), g') /\
    create_instance module_globals 15 4 4 45 sample_rng
      = Ok (nl ++
            layout_as_specified
              (mkInstance (range 15) (range 4) (range 4) A
                 (round_robin 4 15) F G d T TD 45),
            g')%string.
Proof.
  apply (create_instance_layout module_globals 15 4 4 45 sample_rng).
  left. lia.
Defined.

(** The text of an instance does not start with the statement for [O]: for
    one operation, one surgeon and one room it is not the text described
    without the leading blank line, whatever data is put in. *)
Lemma create_instance_starts_with_blank_line :
  ~ exists (i : Instance) (g' : Rng),
      create_instance tiny_globals 1 1 1 45 sample_rng
      = Ok (layout_as_specified i, g').
Proof.
  intros (i & g' & H).
  assert (E : exists rest g1,
             create_instance tiny_globals 1 1 1 45 sample_rng
             = Ok (String (ascii_of_nat 10) rest, g1)).
  { eexists. eexists. vm_compute. reflexivity. }
  destruct E as (rest & g1 & E). rewrite E in H.
  injection H as H _.
  unfold layout_as_specified, stmt in H. cbn [append] in H.
  discriminate H.
Qed.

(** ** Export of several instances *)

(** [create_instance] returns a text unless there are operations and no
    surgeon, in which case the modulo raises. *)
Lemma create_instance_cases (gl : Globals)
    (nb_operations nb_surgeons nb_rooms Tmax : Z) (g : Rng) :
  (nb_surgeons <> 0 \/ nb_operations <= 0 ->
   exists s g', create_instance gl nb_operations nb_surgeons nb_rooms Tmax g
                = Ok (s, g')) /\
  (nb_surgeons = 0 /\ 0 < nb_operations ->
   create_instance gl nb_operations nb_surgeons nb_rooms Tmax g
   = Raise ZeroDivisionError).
Proof.
  destruct (room_availability_matrix_total gl nb_operations nb_rooms
              default_probability g) as (A & g1 & EA).
  split.
  - intros Hs.
    destruct (surgeon_time_windows_total gl nb_surgeons g1)
      as (F & G & g2 & EW).
    destruct (operation_durations_total nb_operations g2) as (d & g3 & ED).
    destruct (types_and_setup_times_ok gl nb_operations nb_surgeons 30 4 g3)
      as (T & cell & g' & ET & _); [lia | lia |].
    unfold create_instance, bind.
    rewrite generate_room_availability_eq, EA.
    unfold lift. rewrite (generate_surgeon_eligibility_ok _ _ Hs).
    rewrite generate_surgeon_time_windows_eq, EW.
    rewrite generate_operation_durations_eq, ED.
    rewrite generate_types_and_setup_times_eq, ET.
    unfold ret. eexists. eexists. reflexivity.
  - intros [-> Ho].
    unfold create_instance, bind.
    rewrite generate_room_availability_eq, EA.
    unfold lift, generate_surgeon_eligibility.
    rewrite surgeon_eligibility_matrix_zero.
    destruct (Z.ltb_spec 0 nb_operations); [reflexivity | lia].
Qed.

Lemma for_each_cons {A : Type} (body : A -> IO unit) (a : A) (l : list A)
    (w : World) :
  for_each body (a :: l) w =
  match body a w with
  | (Ok _, w') => for_each body l w'
  | (Raise e, w') => (Raise e, w')
  end.
Proof.
  simpl. unfold io_bind. destruct (body a w) as [[[] | e] w']; reflexivity.
Qed.

Lemma files_written_app (t1 t2 : list io_event) :
  files_written (t1 ++ t2) = files_written t1 ++ files_written t2.
Proof.
  induction t1 as [| e t1 IH]; simpl; [reflexivity |].
  destruct e; simpl; now rewrite IH.
Qed.

Lemma dirs_made_app (t1 t2 : list io_event) :
  dirs_made (t1 ++ t2) = dirs_made t1 ++ dirs_made t2.
Proof.
  induction t1 as [| e t1 IH]; simpl; [reflexivity |].
  destruct e; simpl; now rewrite IH.
Qed.

(** On a file system that accepts every call, the export loop writes one
    file per index, named after the index and holding an instance text. *)
Lemma for_each_export (gl : Globals) (output_folder : string) (l : list Z) :
  nb_surgeons gl <> 0 \/ nb_operations gl <= 0 ->
  forall w,
    exists w' events,
      for_each (export_instance gl io_always output_folder) l w
        = (Ok tt, w') /\
      trace w' = trace w ++ events /\
      dirs_made events = [] /\
      map fst (files_written events)
        = map (fun i => path_join output_folder (instance_filename gl i)) l /\
      Forall (fun content =>
                exists g g',
                  create_instance gl (nb_operations gl) (nb_surgeons gl)
                                  (nb_rooms gl) default_Tmax g
                  = Ok (content, g'))
             (map snd (files_written events)).
Proof.
  intros Hs. induction l as [| i l IH]; intros w.
  - exists w, []. simpl. rewrite app_nil_r. repeat split. constructor.
  - rewrite for_each_cons.
    destruct (create_instance_cases gl (nb_operations gl) (nb_surgeons gl)
                (nb_rooms gl) default_Tmax (rng w)) as [Hok _].
    destruct (Hok Hs) as (s & g' & E).
    unfold export_instance at 1. unfold io_bind, run. rewrite E.
    unfold syscall, io_always, print. cbn [rng trace].
    match goal with
    | |- context [for_each _ l ?w1] =>
        destruct (IH w1) as (w' & events & Ef & Et & Hd & Hp & Hc)
    end.
    exists w'. eexists. split; [exact Ef |]. cbn [trace] in Et.
    split; [rewrite Et, <- !app_assoc; reflexivity |].
    cbn [app files_written dirs_made map fst snd].
    split; [exact Hd |]. split; [now rewrite Hp |].
    constructor; [| exact Hc]. exists (rng w), g'. exact E.
Qed.

(** C9: called without an output folder, [generate_multiple_instances]
    raises [ValueError] and leaves the world as it was: no draw has been
    made and no file-system call issued, whatever the file system would
    answer.  With an output folder, when the file system accepts every
    call and an instance can be produced, it creates the folder and then
    writes [n] files, one per index of [range(n)], each holding a text
    that [create_instance] returned. *)
Theorem no_output_folder_fails_fast (gl : Globals)
    (fs : io_event -> result unit) (n : Z) (w : World) :
  generate_multiple_instances gl fs n None w = (Raise ValueError, w) /\
  (forall output_folder,
     nb_surgeons gl <> 0 \/ nb_operations gl <= 0 ->
     exists w' events,
       generate_multiple_instances gl io_always n (Some output_folder) w
         = (Ok tt, w') /\
       trace w' = trace w ++ Makedirs output_folder :: events /\
       dirs_made events = [] /\
       List.length (files_written events) = Z.to_nat n /\
       map fst (files_written events)
         = map (fun i => path_join output_folder (instance_filename gl i))
               (range n) /\
       Forall (fun content =>
                 exists g g',
                   create_instance gl (nb_operations gl) (nb_surgeons gl)
                                   (nb_rooms gl) default_Tmax g
                   = Ok (content, g'))
              (map snd (files_written events))).
Proof.
  split; [reflexivity |].
  - intros output_folder Hs.
    unfold generate_multiple_instances, io_bind, syscall, io_always.
    destruct (for_each_export gl output_folder (range n) Hs
                (mkWorld (rng w) (trace w ++ [Makedirs output_folder])))
      as (w' & events & E & Et & Hd & Hp & Hc).
    exists w', events. split; [exact E |]. cbn [trace] in Et.
    split; [rewrite Et, <- app_assoc; reflexivity |].
    split; [exact Hd |]. split; [| split; [exact Hp | exact Hc]].
    rewrite <- (length_map fst), Hp, length_map. apply range_length.
Qed.

Lemma no_output_folder_fails_fast_witness :
  generate_multiple_instances module_globals io_always 1 None sample_world
    = (Raise ValueError, sample_world) /\
  exists w' events,
    generate_multiple_instances module_globals io_always 1
      (Some "generated_instances"%string) sample_world = (Ok tt, w') /\
    trace w' = trace sample_world ++ Makedirs "generated_instances" :: events /\
    List.length (files_written events) = 1%nat /\
    map fst (files_written events)
      = ["generated_instances/o15_c4_s4_ST_instance_0.txt"%string].
Proof.
  destruct (no_output_folder_fails_fast module_globals io_always 1
              sample_world) as (Hnone & Hsome).
  split; [exact Hnone |].
  destruct (Hsome "generated_instances"%string) as
    (w' & events & E & Et & _ & Hl & Hp & _); [left; simpl; lia |].
  exists w', events. split; [exact E |]. split; [exact Et |].
  split; [exact Hl | exact Hp].
Defined.

(** * Further properties *)

(** ** The types of the operations *)

Lemma set_nth_zeros_one_hot (nb_types t : Z) :
  0 <= t < nb_types ->
  set_nth (map (fun _ => 0) (range nb_types)) (Z.to_nat t) 1
  = one_hot nb_types t.
Proof.
  intros Ht. unfold one_hot.
  apply nth_ext with (d := 0) (d' := 0).
  - now rewrite set_nth_length, !length_map.
  - intros i Hi. rewrite set_nth_length, length_map, range_length in Hi.
    rewrite nth_set_nth by (rewrite length_map, range_length; lia).
    rewrite !nth_map_range by assumption.
    destruct (Nat.eqb_spec i (Z.to_nat t)), (Z.eqb_spec (Z.of_nat i) t);
      try reflexivity; lia.
Qed.

Lemma initial_types_rows_ok (nb_surgeons nb_operations nb_types : Z)
    (type_by_surgeon : list Z) :
  types_rows_ok nb_surgeons nb_operations nb_types type_by_surgeon 0
    (map (fun _ => map (fun _ => 0) (range nb_types)) (range nb_operations),
     replicate nb_operations (-1)).
Proof.
  intros i Hi. cbn [fst]. now rewrite nth_map_range.
Qed.

(** The loop that types the operations, with the rows of [T] it leaves. *)
Lemma assign_type_loop_rows (nb_surgeons nb_operations nb_types : Z)
    (type_by_surgeon : list Z) (st0 : list (list Z) * list Z) (n : nat) :
  1 <= nb_surgeons -> 1 <= nb_types ->
  List.length type_by_surgeon = Z.to_nat nb_surgeons ->
  Forall (fun t => 0 <= t < nb_types) type_by_surgeon ->
  (n <= Z.to_nat nb_operations)%nat ->
  types_state_ok nb_surgeons nb_operations nb_types type_by_surgeon 0 st0 ->
  types_rows_ok nb_surgeons nb_operations nb_types type_by_surgeon 0 st0 ->
  exists st,
    foldR (fun st o =>
             assign_type (round_robin nb_surgeons nb_operations)
                         type_by_surgeon o (range nb_surgeons) st)
          (range (Z.of_nat n)) st0 = Ok st /\
    types_state_ok nb_surgeons nb_operations nb_types type_by_surgeon n st /\
    types_rows_ok nb_surgeons nb_operations nb_types type_by_surgeon n st.
Proof.
  intros Hs Ht Hl Hr Hn H0 R0. induction n as [| n IH].
  - exists st0. split; [reflexivity |]. split; assumption.
  - destruct IH as (st & E & Hst & Rst); [lia |].
    pose proof (Z.mod_pos_bound (Z.of_nat n) nb_surgeons ltac:(lia)) as Hmod.
    pose proof (assign_type_scan nb_surgeons nb_operations nb_types
                  type_by_surgeon Hs Ht Hl Hr (Z.of_nat n) st n
                  ltac:(lia) Hst (Z.to_nat nb_surgeons) 0%nat
                  ltac:(lia) ltac:(lia)) as Escan.
    cbv zeta in Escan. fold (range nb_surgeons) in Escan.
    destruct (assign_type_step nb_surgeons nb_operations nb_types
                type_by_surgeon Hs Ht Hl Hr n st ltac:(lia) Hst)
      as (st' & E' & Hst').
    exists st'. split; [| split; [exact Hst' |]].
    + rewrite range_of_nat_snoc, foldR_app, E. cbn [rbind foldR].
      now rewrite E'.
    + rewrite Escan in E'. injection E' as <-.
      set (t := nth (Z.to_nat (Z.of_nat n mod nb_surgeons)) type_by_surgeon 0).
      assert (Htr : 0 <= t < nb_types).
      { apply (Forall_nth_default (fun t => 0 <= t < nb_types));
          [assumption | lia]. }
      destruct Hst as (HlT & _).
      intros i Hi. cbn [fst]. rewrite nth_set_nth by lia.
      rewrite Nat2Z.id.
      destruct (Nat.eqb_spec i n) as [-> | Hne].
      * destruct (Nat.ltb_spec n (S n)); [| lia].
        rewrite (Rst n Hi). destruct (Nat.ltb_spec n n); [lia |].
        now apply set_nth_zeros_one_hot.
      * rewrite (Rst i Hi).
        destruct (Nat.ltb_spec i n), (Nat.ltb_spec i (S n));
          try reflexivity; lia.
Qed.

(** [types_and_setup_times] on the round-robin matrix of at least one
    surgeon, with everything it computes: the types of the surgeons, the
    type-transition table, the one-hot rows of [T], and [TD] read off the
    table at the types of the two surgeons. *)
Lemma types_and_setup_times_full (gl : Globals)
    (nb_operations nb_surgeons max_setup_time nb_types : Z) (g : Rng) :
  1 <= nb_surgeons -> 1 <= nb_types -> 0 <= max_setup_time ->
  exists type_by_surgeon table T g',
    types_and_setup_times gl nb_operations
      (round_robin nb_surgeons nb_operations) max_setup_time nb_types g
      = Ok ((T,
             map (fun o1 =>
                    map (fun o2 =>
                           entry table nb_types
                             (nth (Z.to_nat (o1 mod nb_surgeons))
                                  type_by_surgeon 0)
                             (nth (Z.to_nat (o2 mod nb_surgeons))
                                  type_by_surgeon 0))
                        (range nb_operations))
                 (range nb_operations)), g') /\
    List.length type_by_surgeon = Z.to_nat nb_surgeons /\
    Forall (fun t => 0 <= t < nb_types) type_by_surgeon /\
    List.length T = Z.to_nat nb_operations /\
    (forall o, 0 <= o < nb_operations ->
       nth (Z.to_nat o) T []
       = one_hot nb_types
           (nth (Z.to_nat (o mod nb_surgeons)) type_by_surgeon 0)) /\
    (forall t1 t2, 0 <= t1 < nb_types -> 0 <= t2 < nb_types ->
       transition_ok gl max_setup_time t1 t2
         (nth (Z.to_nat t2) (nth (Z.to_nat t1) table []) 0)).
Proof.
  intros Hs Ht Hm. unfold types_and_setup_times. rewrite len_round_robin.
  destruct (type_by_surgeon_ok nb_types (range nb_surgeons) g Ht)
    as (tbs & g1 & Etbs & Hl & Hr).
  rewrite range_length in Hl.
  destruct (assign_type_loop_rows nb_surgeons nb_operations nb_types tbs
              _ (Z.to_nat nb_operations) Hs Ht Hl Hr (Nat.le_refl _)
              (initial_types_state_ok nb_surgeons nb_operations nb_types
                 tbs ltac:(lia))
              (initial_types_rows_ok nb_surgeons nb_operations nb_types tbs))
    as ([T tbo] & Est & (HlT & _ & Hlo & Hro & Hty) & Hrows).
  rewrite <- range_to_nat in Est. unfold types_rows_ok in Hrows.
  cbn [fst snd] in *.
  destruct (type_transition_time_ok gl max_setup_time nb_types g1 Hm)
    as (table & g2 & Etab & Hlt & Htab).
  pose proof (setup_rows nb_operations nb_types tbo table Ht Hlo Hro Hlt
                (fun t1 H1 => proj1 (Htab t1 H1))) as ETD.
  unfold bind. rewrite Etbs. unfold lift at 1. rewrite Est.
  rewrite Etab. unfold lift. rewrite ETD. unfold ret.
  exists tbs, table, T, g2. split.
  { f_equal. f_equal. f_equal.
    apply map_ext_in. intros o1 H1. apply in_range in H1.
    apply map_ext_in. intros o2 H2. apply in_range in H2.
    rewrite (Hty (Z.to_nat o1)), (Hty (Z.to_nat o2)) by lia.
    now rewrite !Z2Nat.id by lia. }
  split; [exact Hl |]. split; [exact Hr |]. split; [exact HlT |]. split.
  - intros o Ho. rewrite (Hrows (Z.to_nat o)) by lia.
    destruct (Nat.ltb_spec (Z.to_nat o) (Z.to_nat nb_operations)); [| lia].
    now rewrite Z2Nat.id by lia.
  - intros t1 t2 H1 H2. now apply Htab.
Qed.

Lemma nth_replicate {A : Type} (n : Z) (i : nat) (a d : A) :
  (i < Z.to_nat n)%nat -> nth i (replicate n a) d = a.
Proof.
  intros H. unfold replicate.
  rewrite nth_indep with (d' := a) by now rewrite repeat_length.
  apply nth_repeat.
Qed.

(** Without a row in the eligibility matrix no operation gets a type:
    [T] stays all 0, every operation keeps the type -1, which as an index
    is the last type, and [TD] is the zero matrix. *)
Lemma types_and_setup_times_no_surgeon (gl : Globals)
    (nb_operations max_setup_time nb_types : Z) (g : Rng) :
  1 <= nb_types -> 0 <= max_setup_time ->
  exists g',
    types_and_setup_times gl nb_operations [] max_setup_time nb_types g
    = Ok ((replicate nb_operations (replicate nb_types 0),
           replicate nb_operations (replicate nb_operations 0)), g').
Proof.
  intros Ht Hm. unfold types_and_setup_times.
  change (range (len [])) with (@nil Z). cbn [mapM]. unfold bind, ret.
  unfold lift at 1. rewrite foldR_id by reflexivity.
  destruct (type_transition_time_ok gl max_setup_time nb_types g Hm)
    as (table & g2 & Etab & Hlt & Htab).
  rewrite Etab.
  assert (Hlo : List.length (replicate nb_operations (-1))
                = Z.to_nat nb_operations)
    by (unfold replicate; apply repeat_length).
  assert (Hro : Forall (fun t => -1 <= t < nb_types)
                       (replicate nb_operations (-1))).
  { apply Forall_forall. intros t Hin. apply repeat_spec in Hin. lia. }
  pose proof (setup_rows nb_operations nb_types _ table Ht Hlo Hro Hlt
                (fun t1 H1 => proj1 (Htab t1 H1))) as ETD.
  unfold lift. rewrite ETD. exists g2. f_equal. f_equal. f_equal.
  - rewrite <- !map_const_range. reflexivity.
  - apply cells_zero. intros o1 o2 H1 H2.
    rewrite !nth_replicate by lia. unfold entry, norm.
    change (-1 <? 0) with true. cbv iota.
    destruct (Htab (-1 + nb_types)) as [_ Hcell]; [lia |].
    destruct (Hcell (-1 + nb_types)) as (Hd & _); [lia |].
    now apply Hd.
Qed.

Lemma sum_one_hot (nb_types t : Z) :
  0 <= t < nb_types -> sum (one_hot nb_types t) = 1.
Proof.
  intros Ht. unfold one_hot. rewrite (range_to_nat nb_types), sum_indicator.
  destruct (Z.leb_spec 0 t), (Z.ltb_spec t (Z.of_nat (Z.to_nat nb_types)));
    cbn [andb]; lia.
Qed.

Lemma index_one_hot (nb_types t k : Z) :
  0 <= k < nb_types ->
  index (one_hot nb_types t) k = Ok (if k =? t then 1 else 0).
Proof.
  intros Hk. unfold one_hot. rewrite index_nth with (d := 0).
  - rewrite nth_map_range by lia. now rewrite Z2Nat.id by lia.
  - unfold len. rewrite length_map, range_length. lia.
Qed.

Lemma one_hot_inj (nb_types t t' : Z) :
  0 <= t < nb_types -> one_hot nb_types t = one_hot nb_types t' -> t = t'.
Proof.
  intros Ht E.
  assert (H : index (one_hot nb_types t) t = index (one_hot nb_types t') t)
    by now rewrite E.
  rewrite !index_one_hot in H by assumption. rewrite Z.eqb_refl in H.
  destruct (Z.eqb_spec t t'); [assumption | discriminate].
Qed.

(** X1: with at least one surgeon, row [o] of the specialty matrix [T] is
    one-hot: it has [nb_types] cells, a single 1 and 0 elsewhere, so it
    sums to 1; and two operations of the same surgeon (congruent modulo the
    surgeon count) have the same row. *)
Theorem specialty_rows_one_hot (gl : Globals)
    (nb_operations nb_surgeons max_setup_time nb_types : Z) (g : Rng) :
  1 <= nb_surgeons -> 1 <= nb_types -> 0 <= max_setup_time ->
  exists X matrix_X T TD g',
    generate_surgeon_eligibility nb_surgeons nb_operations
      = Ok (X, matrix_X) /\
    types_and_setup_times gl nb_operations X max_setup_time nb_types g
      = Ok ((T, TD), g') /\
    len T = Z.max 0 nb_operations /\
    (forall o, 0 <= o < nb_operations ->
       exists t line,
         0 <= t < nb_types /\
         index T o = Ok line /\ len line = nb_types /\ sum line = 1 /\
         forall k, 0 <= k < nb_types ->
           index line k = Ok (if k =? t then 1 else 0)) /\
    (forall o1 o2, 0 <= o1 < nb_operations -> 0 <= o2 < nb_operations ->
       o1 mod nb_surgeons = o2 mod nb_surgeons ->
       index T o1 = index T o2).
Proof.
  intros Hs Ht Hm.
  destruct (types_and_setup_times_full gl nb_operations nb_surgeons
              max_setup_time nb_types g Hs Ht Hm)
    as (tbs & table & T & g' & E & Hl & Hr & HlT & Hrow & _).
  eexists. eexists. exists T. eexists. exists g'.
  split; [apply generate_surgeon_eligibility_ok; lia |].
  split; [exact E |]. split; [unfold len; lia |]. split.
  - intros o Ho.
    pose proof (Z.mod_pos_bound o nb_surgeons ltac:(lia)) as Hmod.
    set (t := nth (Z.to_nat (o mod nb_surgeons)) tbs 0).
    assert (Htr : 0 <= t < nb_types).
    { apply (Forall_nth_default (fun t => 0 <= t < nb_types));
        [assumption | lia]. }
    exists t, (one_hot nb_types t). split; [exact Htr |]. split.
    { rewrite index_nth with (d := []) by (unfold len; lia).
      now rewrite Hrow. }
    split.
    { unfold len, one_hot. rewrite length_map, range_length. lia. }
    split; [now apply sum_one_hot |].
    intros k Hk. now apply index_one_hot.
  - intros o1 o2 H1 H2 Hmod.
    rewrite !index_nth with (d := []) by (unfold len; lia).
    now rewrite !Hrow, Hmod.
Qed.

Lemma specialty_rows_one_hot_witness :
  exists X matrix_X T TD g',
    generate_surgeon_eligibility 4 15 = Ok (X, matrix_X) /\
    types_and_setup_times module_globals 15 X 30 4 sample_rng
      = Ok ((T, TD), g') /\
    len T = 15 /\
    (exists t line,
       0 <= t < 4 /\ index T 9 = Ok line /\ len line = 4 /\ sum line = 1 /\
       index line 2 = Ok (if 2 =? t then 1 else 0)) /\
    index T 1 = index T 9.
Proof.
  destruct (specialty_rows_one_hot module_globals 15 4 30 4 sample_rng)
    as (X & sx & T & TD & g' & EX & E & Hl & Hrow & Hsame); [lia | lia | lia |].
  exists X, sx, T, TD, g'. split; [exact EX |]. split; [exact E |].
  split; [exact Hl |]. split.
  - destruct (Hrow 9) as (t & line & Ht & Ei & Hlen & Hsum & Hk); [lia |].
    exists t, line. repeat split; try assumption; try lia.
    apply (Hk 2). lia.
  - apply (Hsame 1 9); [lia | lia | reflexivity].
Defined.

(** X2: with at least one surgeon, [TD] is square, every setup time lies
    in [[0, max_setup_time]], [TD[o1][o2]] only depends on the surgeons of
    the two operations (on the classes of [o1] and [o2] modulo the surgeon
    count), and it is 0 whenever the two operations have the same row in
    [T], that is the same specialty. *)
Theorem setup_times_follow_types (gl : Globals)
    (nb_operations nb_surgeons max_setup_time nb_types : Z) (g : Rng) :
  1 <= nb_surgeons -> 1 <= nb_types -> 0 <= max_setup_time ->
  exists X matrix_X T TD g',
    generate_surgeon_eligibility nb_surgeons nb_operations
      = Ok (X, matrix_X) /\
    types_and_setup_times gl nb_operations X max_setup_time nb_types g
      = Ok ((T, TD), g') /\
    len TD = Z.max 0 nb_operations /\
    forall o1 o2, 0 <= o1 < nb_operations -> 0 <= o2 < nb_operations ->
      exists line d,
        index TD o1 = Ok line /\ len line = nb_operations /\
        index line o2 = Ok d /\
        0 <= d <= max_setup_time /\
        (index T o1 = index T o2 -> d = 0) /\
        forall o1' o2',
          0 <= o1' < nb_operations -> 0 <= o2' < nb_operations ->
          o1' mod nb_surgeons = o1 mod nb_surgeons ->
          o2' mod nb_surgeons = o2 mod nb_surgeons ->
          exists line', index TD o1' = Ok line' /\ index line' o2' = Ok d.
Proof.
  intros Hs Ht Hm.
  destruct (types_and_setup_times_full gl nb_operations nb_surgeons
              max_setup_time nb_types g Hs Ht Hm)
    as (tbs & table & T & g' & E & Hl & Hr & HlT & Hrow & Htab).
  set (ty := fun o => nth (Z.to_nat (o mod nb_surgeons)) tbs 0) in *.
  assert (Hty : forall o, 0 <= ty o < nb_types).
  { intros o. pose proof (Z.mod_pos_bound o nb_surgeons ltac:(lia)).
    apply (Forall_nth_default (fun t => 0 <= t < nb_types));
      [assumption | lia]. }
  eexists. eexists. exists T. eexists. exists g'.
  split; [apply generate_surgeon_eligibility_ok; lia |].
  split; [exact E |]. split.
  { unfold len. rewrite length_map, range_length. lia. }
  intros o1 o2 H1 H2.
  destruct (index_cells (fun a b => entry table nb_types (ty a) (ty b))
              nb_operations o1 o2 H1 H2) as (line & El & Ec).
  exists line, (entry table nb_types (ty o1) (ty o2)).
  split; [exact El |].
  assert (Hline : line = map (fun b => entry table nb_types (ty o1) (ty b))
                             (range nb_operations)).
  { rewrite index_nth with (d := []) in El
      by (unfold len; rewrite length_map, range_length; lia).
    rewrite nth_map_range in El by lia. rewrite Z2Nat.id in El by lia.
    now injection El as <-. }
  split.
  { rewrite Hline. unfold len. rewrite length_map, range_length. lia. }
  split; [exact Ec |].
  assert (Hnorm : forall t, 0 <= t < nb_types -> norm nb_types t = t).
  { intros t H. unfold norm. destruct (Z.ltb_spec t 0); lia. }
  unfold entry. rewrite !Hnorm by apply Hty.
  destruct (Htab (ty o1) (ty o2) (Hty o1) (Hty o2)) as (Hd & _ & Hb).
  split; [exact Hb |]. split.
  - intros HT.
    rewrite !index_nth with (d := []) in HT by (unfold len; lia).
    rewrite !Hrow in HT by assumption. injection HT as HT.
    apply Hd. apply (one_hot_inj nb_types); [apply Hty | exact HT].
  - intros o1' o2' H1' H2' E1 E2.
    destruct (index_cells (fun a b => entry table nb_types (ty a) (ty b))
                nb_operations o1' o2' H1' H2') as (line' & El' & Ec').
    exists line'. split; [exact El' |]. rewrite Ec'. f_equal.
    unfold entry, ty. now rewrite E1, E2, !Hnorm by apply Hty.
Qed.

Lemma setup_times_follow_types_witness :
  exists X matrix_X T TD g',
    generate_surgeon_eligibility 4 15 = Ok (X, matrix_X) /\
    types_and_setup_times module_globals 15 X 30 4 sample_rng
      = Ok ((T, TD), g') /\
    len TD = 15 /\
    exists line d,
      index TD 1 = Ok line /\ len line = 15 /\ index line 2 = Ok d /\
      0 <= d <= 30 /\
      exists line', index TD 5 = Ok line' /\ index line' 10 = Ok d.
Proof.
  destruct (setup_times_follow_types module_globals 15 4 30 4 sample_rng)
    as (X & sx & T & TD & g' & EX & E & Hl & H); [lia | lia | lia |].
  exists X, sx, T, TD, g'. split; [exact EX |]. split; [exact E |].
  split; [exact Hl |].
  destruct (H 1 2) as (line & d & El & Hlen & Ed & Hb & _ & Hper);
    [lia | lia |].
  exists line, d. repeat split; try assumption; try lia.
  apply (Hper 5 10); [lia | lia | reflexivity | reflexivity].
Defined.

(** ** Degenerate surgeon counts *)

Lemma round_robin_nonpos (nb_surgeons nb_operations : Z) :
  nb_surgeons <= 0 -> round_robin nb_surgeons nb_operations = [].
Proof. intros H. unfold round_robin. now rewrite (range_nonpos nb_surgeons). Qed.

(** X3: a negative surgeon count is accepted silently: the eligibility
    matrix is empty ([X = []; ]), no operation gets a type, so [T] is all 0
    and [TD] is the zero matrix even with setup times enabled, and
    [create_instance] returns a text. *)
Theorem negative_surgeon_count (gl : Globals)
    (nb_operations nb_surgeons nb_rooms Tmax : Z) (g : Rng) :
  nb_surgeons < 0 ->
  generate_surgeon_eligibility nb_surgeons nb_operations
    = Ok ([], ("X = []; " ++ nl)%string) /\
  (exists g',
     types_and_setup_times gl nb_operations [] 30 4 g
     = Ok ((replicate nb_operations (replicate 4 0),
            replicate nb_operations (replicate nb_operations 0)), g')) /\
  (exists text g',
     create_instance gl nb_operations nb_surgeons nb_rooms Tmax g
     = Ok (text, g')).
Proof.
  intros Hs. split; [| split].
  - rewrite generate_surgeon_eligibility_ok by lia.
    now rewrite round_robin_nonpos by lia.
  - apply types_and_setup_times_no_surgeon; lia.
  - apply create_instance_cases. left. lia.
Qed.

Lemma negative_surgeon_count_witness :
  generate_surgeon_eligibility (-2) 3 = Ok ([], ("X = []; " ++ nl)%string) /\
  (exists g',
     types_and_setup_times negative_surgeon_globals 3 [] 30 4 sample_rng
     = Ok ((replicate 3 (replicate 4 0), replicate 3 (replicate 3 0)), g')) /\
  (exists text g',
     create_instance negative_surgeon_globals 3 (-2) 3 45 sample_rng
     = Ok (text, g')).
Proof.
  apply (negative_surgeon_count negative_surgeon_globals 3 (-2) 3 45
                                sample_rng).
  lia.
Defined.

(** X4: with a surgeon count of 0 the modulo of the first operation
    raises: [generate_surgeon_eligibility] and [create_instance] end in
    [ZeroDivisionError] as soon as there is an operation, and return (an
    empty matrix, a text) when there is none. *)
Theorem zero_surgeons_divide_by_zero (gl : Globals)
    (nb_operations nb_rooms Tmax : Z) (g : Rng) :
  (1 <= nb_operations ->
   generate_surgeon_eligibility 0 nb_operations = Raise ZeroDivisionError /\
   create_instance gl nb_operations 0 nb_rooms Tmax g
   = Raise ZeroDivisionError) /\
  (nb_operations <= 0 ->
   generate_surgeon_eligibility 0 nb_operations
     = Ok ([], ("X = []; " ++ nl)%string) /\
   exists text g',
     create_instance gl nb_operations 0 nb_rooms Tmax g = Ok (text, g')).
Proof.
  split; intros Ho; split.
  - unfold generate_surgeon_eligibility.
    rewrite surgeon_eligibility_matrix_zero.
    destruct (Z.ltb_spec 0 nb_operations); [reflexivity | lia].
  - apply create_instance_cases. lia.
  - unfold generate_surgeon_eligibility.
    rewrite surgeon_eligibility_matrix_zero.
    destruct (Z.ltb_spec 0 nb_operations); [lia | reflexivity].
  - apply create_instance_cases. now right.
Qed.

Lemma zero_surgeons_divide_by_zero_witness :
  (generate_surgeon_eligibility 0 15 = Raise ZeroDivisionError /\
   create_instance no_surgeon_globals 15 0 4 45 sample_rng
   = Raise ZeroDivisionError) /\
  generate_surgeon_eligibility 0 0 = Ok ([], ("X = []; " ++ nl)%string).
Proof.
  split.
  - apply (zero_surgeons_divide_by_zero no_surgeon_globals 15 4 45
                                        sample_rng). lia.
  - apply (zero_surgeons_divide_by_zero no_surgeon_globals 0 4 45
                                        sample_rng). lia.
Defined.

(** ** More on room availability *)

Lemma room_cells_binary (nb_rooms : Z) (p : Q) (rs : list Z) :
  forall (row : list Z) (only_zeros : bool) (g : Rng),
    Forall binary row ->
    exists row' only_zeros' g',
      foldM (room_cell nb_rooms p) rs (row, only_zeros) g
        = Ok ((row', only_zeros'), g') /\
      List.length row' = (List.length row + List.length rs)%nat /\
      Forall binary row'.
Proof.
  assert (Hsnoc : forall row x, Forall binary row -> binary x ->
                                Forall binary (row ++ [x])).
  { intros row x Hrow Hx. apply Forall_app. split; [assumption |].
    now constructor. }
  induction rs as [| r rs IH]; intros row oz g Hb.
  - exists row, oz, g. simpl. unfold ret. repeat split; [lia | assumption].
  - rewrite foldM_cons.
    destruct ((r =? nb_rooms - 1) && oz) eqn:Elast.
    + apply andb_prop in Elast. destruct Elast as [Er ->].
      apply Z.eqb_eq in Er. subst r. rewrite room_cell_forced.
      destruct (IH (row ++ [1]) true g) as (row' & oz' & g' & E & Hl & Hb').
      { apply Hsnoc; [assumption | now right]. }
      exists row', oz', g'. rewrite length_app in Hl. simpl in *.
      repeat split; [assumption | lia | assumption].
    + destruct (room_cell_drawn nb_rooms p row oz r g Elast) as (u & _ & ->).
      destruct (lt u p).
      * destruct (IH (row ++ [1]) false (Random.advance_mt g))
          as (row' & oz' & g' & E & Hl & Hb').
        { apply Hsnoc; [assumption | now right]. }
        exists row', oz', g'. rewrite length_app in Hl. simpl in *.
        repeat split; [assumption | lia | assumption].
      * destruct (IH (row ++ [0]) oz (Random.advance_mt g))
          as (row' & oz' & g' & E & Hl & Hb').
        { apply Hsnoc; [assumption | now left]. }
        exists row', oz', g'. rewrite length_app in Hl. simpl in *.
        repeat split; [assumption | lia | assumption].
Qed.

Lemma room_rows_binary (nb_rooms : Z) (p : Q) (os : list Z) :
  forall (matrix : list (list Z)) (g : Rng),
    exists rows g',
      foldM (room_row nb_rooms p) os matrix g = Ok (matrix ++ rows, g') /\
      List.length rows = List.length os /\
      Forall (fun row => List.length row = Z.to_nat nb_rooms /\
                         Forall binary row) rows.
Proof.
  induction os as [| o os IH]; intros matrix g.
  - exists [], g. simpl. unfold ret. rewrite app_nil_r. repeat split.
    constructor.
  - rewrite foldM_cons, room_row_eq.
    destruct (room_cells_binary nb_rooms p (range nb_rooms) [] true g)
      as (row & oz & g1 & E & Hl & Hb); [constructor |].
    rewrite E. simpl fst.
    destruct (IH (matrix ++ [row]) g1) as (rows & g' & E' & Hl' & Hf).
    exists (row :: rows), g'. rewrite E', <- app_assoc. simpl.
    rewrite range_length in Hl. simpl in Hl.
    repeat split; [lia |]. constructor; [| exact Hf]. now split.
Qed.

(** X5: for any counts, probability and draws, the room-eligibility matrix
    has one row per operation (none for a count below 1), each row has one
    cell per room (none for a count below 1), and every cell is 0 or 1. *)
Theorem room_matrix_is_binary (gl : Globals) (nb_operations nb_rooms : Z)
    (probability : Q) (g : Rng) :
  exists matrix g',
    room_availability_matrix gl nb_operations nb_rooms probability g
      = Ok (matrix, g') /\
    len matrix = Z.max 0 nb_operations /\
    Forall (fun row => len row = Z.max 0 nb_rooms /\ Forall binary row)
           matrix.
Proof.
  unfold room_availability_matrix.
  set (p := if all_rooms_available gl then 1%Q else probability).
  destruct (room_rows_binary nb_rooms p (range nb_operations) [] g)
    as (rows & g' & E & Hl & Hf).
  exists rows, g'. split; [exact E |]. rewrite range_length in Hl.
  split; [unfold len; lia |].
  eapply Forall_impl; [| exact Hf]. cbv beta. intros row [Hlen Hb].
  split; [unfold len; lia | exact Hb].
Qed.

Lemma room_cells_last_only (nb_rooms : Z) (p : Q) (rs : list Z) :
  (p <= 0)%Q ->
  forall (row : list Z) (g : Rng),
    exists g',
      foldM (room_cell nb_rooms p) rs (row, true) g
        = Ok ((row ++ map (fun r => if r =? nb_rooms - 1 then 1 else 0) rs,
               true), g').
Proof.
  intros Hp. induction rs as [| r rs IH]; intros row g.
  - exists g. simpl. unfold ret. now rewrite app_nil_r.
  - rewrite foldM_cons. cbn [map].
    replace (row ++ (if r =? nb_rooms - 1 then 1 else 0)
                 :: map (fun r => if r =? nb_rooms - 1 then 1 else 0) rs)
      with ((row ++ [if r =? nb_rooms - 1 then 1 else 0])
              ++ map (fun r => if r =? nb_rooms - 1 then 1 else 0) rs)
      by now rewrite <- app_assoc.
    destruct (Z.eqb_spec r (nb_rooms - 1)) as [-> | Hne].
    + rewrite room_cell_forced. apply IH.
    + destruct (room_cell_drawn nb_rooms p row true r g)
        as (u & [Hu _] & ->).
      { apply andb_false_iff. left. now apply Z.eqb_neq. }
      destruct (lt u p) eqn:Elt.
      * apply lt_spec in Elt. exfalso.
        apply (Qlt_irrefl 0). eapply Qle_lt_trans; [exact Hu |].
        eapply Qlt_le_trans; [exact Elt | exact Hp].
      * apply IH.
Qed.

(** X6: when [all_rooms_available] is off and the probability is 0 or
    less, no draw succeeds, and only the forced cell is 1: every row of the
    room-eligibility matrix is 0 except for its last room. *)
Theorem no_chance_last_room_only (gl : Globals) (nb_operations nb_rooms : Z)
    (probability : Q) (g : Rng) :
  all_rooms_available gl = false -> (probability <= 0)%Q ->
  exists g',
    room_availability_matrix gl nb_operations nb_rooms probability g
      = Ok (replicate nb_operations (last_room_only nb_rooms), g').
Proof.
  intros Hflag Hp. unfold room_availability_matrix. rewrite Hflag.
  assert (H : forall os matrix g0,
             exists g',
               foldM (room_row nb_rooms probability) os matrix g0
               = Ok (matrix ++ repeat (last_room_only nb_rooms)
                                      (List.length os), g')).
  { induction os as [| o os IH]; intros matrix g0.
    - exists g0. simpl. unfold ret. now rewrite app_nil_r.
    - rewrite foldM_cons, room_row_eq.
      destruct (room_cells_last_only nb_rooms probability (range nb_rooms)
                  Hp [] g0) as (g1 & ->).
      cbn [fst app].
      destruct (IH (matrix ++ [last_room_only nb_rooms]) g1) as (g' & E').
      exists g'. unfold last_room_only in *. rewrite E', <- app_assoc.
      reflexivity. }
  destruct (H (range nb_operations) [] g) as (g' & E).
  exists g'. rewrite E, range_length. reflexivity.
Qed.

Lemma no_chance_last_room_only_witness :
  exists g',
    room_availability_matrix module_globals 2 3 0 sample_rng
      = Ok ([[0; 0; 1]; [0; 0; 1]], g').
Proof.
  apply (no_chance_last_room_only module_globals 2 3 0 sample_rng).
  - reflexivity.
  - apply Qle_refl.
Defined.

(** ** The load of the surgeons *)

Lemma round_robin_step (nb_surgeons c n : Z) :
  1 <= nb_surgeons -> 0 <= c < nb_surgeons -> 0 <= n ->
  (n + 1 + nb_surgeons - 1 - c) / nb_surgeons
  = (n + nb_surgeons - 1 - c) / nb_surgeons
    + (if c =? n mod nb_surgeons then 1 else 0).
Proof.
  intros Hs Hc Hn.
  pose proof (Z.div_mod n nb_surgeons ltac:(lia)) as Hdm.
  pose proof (Z.mod_pos_bound n nb_surgeons ltac:(lia)) as Hr.
  set (k := n / nb_surgeons) in *. set (r := n mod nb_surgeons) in *.
  destruct (Z.eqb_spec c r) as [E | E].
  - rewrite <- (Z.div_unique (n + 1 + nb_surgeons - 1 - c) nb_surgeons
                             (k + 1) 0) by lia.
    rewrite <- (Z.div_unique (n + nb_surgeons - 1 - c) nb_surgeons
                             k (nb_surgeons - 1)) by lia.
    reflexivity.
  - destruct (Z_lt_le_dec c r) as [Hlt | Hge].
    + rewrite <- (Z.div_unique (n + 1 + nb_surgeons - 1 - c) nb_surgeons
                               (k + 1) (r - c)) by lia.
      rewrite <- (Z.div_unique (n + nb_surgeons - 1 - c) nb_surgeons
                               (k + 1) (r - 1 - c)) by lia.
      lia.
    + rewrite <- (Z.div_unique (n + 1 + nb_surgeons - 1 - c) nb_surgeons
                               k (r + nb_surgeons - c)) by lia.
      rewrite <- (Z.div_unique (n + nb_surgeons - 1 - c) nb_surgeons
                               k (r + nb_surgeons - 1 - c)) by lia.
      lia.
Qed.

Lemma round_robin_row_sum (nb_surgeons c : Z) (n : nat) :
  1 <= nb_surgeons -> 0 <= c < nb_surgeons ->
  sum (map (fun o => if c =? o mod nb_surgeons then 1 else 0)
           (range (Z.of_nat n)))
  = (Z.of_nat n + nb_surgeons - 1 - c) / nb_surgeons.
Proof.
  intros Hs Hc. induction n as [| n IH].
  - cbn [Z.of_nat]. change (range 0) with (@nil Z). cbn [map sum fold_right].
    symmetry. apply Z.div_small. lia.
  - rewrite range_of_nat_snoc, map_app, sum_app, IH.
    cbn [map sum fold_right]. rewrite Z.add_0_r.
    replace (Z.of_nat (S n) + nb_surgeons - 1 - c)
      with (Z.of_nat n + 1 + nb_surgeons - 1 - c) by lia.
    symmetry. apply round_robin_step; lia.
Qed.

(** X7: the round robin is balanced: with [nb_surgeons >= 1] and
    [nb_operations >= 0], surgeon [c] is eligible for exactly
    [(nb_operations + nb_surgeons - 1 - c) / nb_surgeons] operations (the
    sum of row [c] of [X]), so two surgeons never differ by more than one
    operation and an earlier surgeon never has fewer than a later one. *)
Theorem surgeon_load_balanced (nb_surgeons nb_operations : Z) :
  1 <= nb_surgeons -> 0 <= nb_operations ->
  exists X matrix_X,
    generate_surgeon_eligibility nb_surgeons nb_operations
      = Ok (X, matrix_X) /\
    (forall c, 0 <= c < nb_surgeons ->
       exists row,
         index X c = Ok row /\ len row = nb_operations /\
         sum row = (nb_operations + nb_surgeons - 1 - c) / nb_surgeons) /\
    (forall c1 c2 row1 row2,
       0 <= c1 <= c2 -> c2 < nb_surgeons ->
       index X c1 = Ok row1 -> index X c2 = Ok row2 ->
       0 <= sum row1 - sum row2 <= 1).
Proof.
  intros Hs Ho.
  assert (Hrow : forall c, 0 <= c < nb_surgeons ->
            index (round_robin nb_surgeons nb_operations) c
            = Ok (map (fun o => if c =? o mod nb_surgeons then 1 else 0)
                      (range nb_operations))).
  { intros c Hc. rewrite index_nth with (d := []).
    - rewrite nth_round_robin by lia. now rewrite Z2Nat.id by lia.
    - unfold len. rewrite round_robin_length. lia. }
  assert (Hsum : forall c, 0 <= c < nb_surgeons ->
            sum (map (fun o => if c =? o mod nb_surgeons then 1 else 0)
                     (range nb_operations))
            = (nb_operations + nb_surgeons - 1 - c) / nb_surgeons).
  { intros c Hc. rewrite (range_to_nat nb_operations).
    rewrite round_robin_row_sum by assumption.
    now rewrite Z2Nat.id by lia. }
  eexists. eexists.
  split; [apply generate_surgeon_eligibility_ok; lia |]. split.
  - intros c Hc. eexists. split; [apply Hrow; assumption |]. split.
    + unfold len. rewrite length_map, range_length. lia.
    + now apply Hsum.
  - intros c1 c2 row1 row2 H1 H2 E1 E2.
    rewrite Hrow in E1, E2 by lia.
    injection E1 as <-. injection E2 as <-.
    rewrite !Hsum by lia.
    Z.div_mod_to_equations. nia.
Qed.

Lemma surgeon_load_balanced_witness :
  exists X matrix_X,
    generate_surgeon_eligibility 4 15 = Ok (X, matrix_X) /\
    (exists row, index X 3 = Ok row /\ len row = 15 /\ sum row = 3) /\
    (forall row1 row2,
       index X 0 = Ok row1 -> index X 3 = Ok row2 ->
       0 <= sum row1 - sum row2 <= 1).
Proof.
  destruct (surgeon_load_balanced 4 15) as (X & sx & E & Hrow & Hbal);
    [lia | lia |].
  exists X, sx. split; [exact E |]. split.
  - apply (Hrow 3). lia.
  - intros row1 row2. apply (Hbal 0 3); lia.
Defined.

(** ** The ranges of the durations *)

(** X8: the four duration vectors have one entry per operation; each
    preparation lies in [[5, 30]], each cleaning in [[10, 20]], each
    surgery is at least 1, and so each total is at least 16. *)
Theorem duration_ranges (nb_operations : Z) (g : Rng) :
  exists d g',
    operation_durations nb_operations g = Ok (d, g') /\
    len (TP d) = Z.max 0 nb_operations /\
    len (TC d) = Z.max 0 nb_operations /\
    len (TN d) = Z.max 0 nb_operations /\
    len (TT d) = Z.max 0 nb_operations /\
    Forall (fun prep => 5 <= prep <= 30) (TP d) /\
    Forall (fun surg => 1 <= surg) (TC d) /\
    Forall (fun clean => 10 <= clean <= 20) (TN d) /\
    Forall (fun total => 16 <= total) (TT d).
Proof.
  destruct (operation_durations_fold (range nb_operations)
              (mkDurations [] [] [] []) g) as (d & g' & E & Hd & Hl).
  { unfold durations_ok. simpl. repeat split; lia. }
  exists d, g'. split; [exact E |].
  destruct Hd as (Hc & Hn & Ht & H).
  simpl in Hl. rewrite range_length in Hl. unfold len.
  split; [lia |]. split; [lia |]. split; [lia |]. split; [lia |].
  assert (Hall : forall (P : Z -> Prop) (l : list Z),
             List.length l = List.length (TP d) ->
             (forall i, (i < List.length (TP d))%nat -> P (nth i l 0)) ->
             Forall P l).
  { intros P l Hlen HP. apply Forall_forall. intros x Hin.
    destruct (In_nth l x 0 Hin) as (i & Hi & <-). apply HP. lia. }
  split; [apply Hall; [reflexivity |]; intros i Hi; apply (H i Hi) |].
  split; [apply Hall; [assumption |]; intros i Hi; apply (H i Hi) |].
  split; [apply Hall; [assumption |]; intros i Hi; apply (H i Hi) |].
  apply Hall; [assumption |]. intros i Hi.
  destruct (H i Hi) as (Hp & Hs & Hk & ->). lia.
Qed.

(** ** File names *)

Lemma str_int_inj (a b : Z) : str_int a = str_int b -> a = b.
Proof.
  unfold str_int. intros E.
  assert (Hnil : forall z, Z.to_int z <> Decimal.Pos Decimal.Nil /\
                           Z.to_int z <> Decimal.Neg Decimal.Nil).
  { intros [| p | p]; simpl; split; try discriminate;
      intros H; injection H as H;
      now apply DecimalPos.Unsigned.to_uint_nonnil in H. }
  apply DecimalZ.to_int_inj.
  assert (H : NilZero.int_of_string (NilZero.string_of_int (Z.to_int a))
              = NilZero.int_of_string (NilZero.string_of_int (Z.to_int b)))
    by now rewrite E.
  rewrite !NilZero.isi in H by apply Hnil. now injection H.
Qed.

Lemma string_app_inv_head (a b c : string) :
  (a ++ b = a ++ c)%string -> b = c.
Proof.
  induction a as [| x a IH]; simpl; [trivial |].
  intros E. injection E as E. now apply IH.
Qed.

Lemma string_length_app (a b : string) :
  String.length (a ++ b) = (String.length a + String.length b)%nat.
Proof. induction a as [| x a IH]; simpl; [reflexivity | now rewrite IH]. Qed.

Lemma string_app_inv_tail (a b c : string) :
  (a ++ c = b ++ c)%string -> a = b.
Proof.
  revert b. induction a as [| x a IH]; intros [| y b] E.
  - reflexivity.
  - apply (f_equal String.length) in E. simpl in E.
    rewrite string_length_app in E. lia.
  - apply (f_equal String.length) in E. simpl in E.
    rewrite string_length_app in E. lia.
  - simpl in E. injection E as -> E. f_equal. now apply IH.
Qed.

Lemma instance_filename_inj (gl : Globals) (i j : Z) :
  instance_filename gl i = instance_filename gl j -> i = j.
Proof.
  unfold instance_filename. intros E.
  repeat apply string_app_inv_head in E.
  apply string_app_inv_tail in E. now apply str_int_inj.
Qed.

Lemma path_join_inj (folder a b : string) :
  path_join folder a = path_join folder b -> a = b.
Proof.
  unfold path_join. destruct folder as [| x folder]; [trivial |].
  destruct (String.eqb _ _); intros E.
  - now apply string_app_inv_head in E.
  - apply string_app_inv_head in E. now apply string_app_inv_head in E.
Qed.

Lemma NoDup_map_inj {A B : Type} (f : A -> B) (l : list A) :
  (forall a b, f a = f b -> a = b) -> NoDup l -> NoDup (map f l).
Proof.
  intros Hinj H. induction H as [| a l Hin H IH]; simpl; constructor.
  - intros Hm. apply in_map_iff in Hm. destruct Hm as (b & E & Hb).
    apply Hinj in E. now subst.
  - exact IH.
Qed.

Lemma NoDup_range (n : Z) : NoDup (range n).
Proof.
  unfold range. apply NoDup_map_inj; [intros a b; lia | apply seq_NoDup].
Qed.

(** ** More on the export *)

Lemma printed_app (t1 t2 : list io_event) :
  printed (t1 ++ t2) = printed t1 ++ printed t2.
Proof.
  induction t1 as [| e t1 IH]; simpl; [reflexivity |].
  destruct e; simpl; now rewrite IH.
Qed.

(** The export loop on a file system that accepts every call: what it
    writes, where, and what it prints. *)
Lemma for_each_export_trace (gl : Globals) (output_folder : string)
    (l : list Z) :
  nb_surgeons gl <> 0 \/ nb_operations gl <= 0 ->
  forall w,
    exists w' events,
      for_each (export_instance gl io_always output_folder) l w
        = (Ok tt, w') /\
      trace w' = trace w ++ events /\
      dirs_made events = [] /\
      map fst (files_written events)
        = map (fun i => path_join output_folder (instance_filename gl i)) l /\
      printed events = map snd (files_written events).
Proof.
  intros Hs. induction l as [| i l IH]; intros w.
  - exists w, []. simpl. rewrite app_nil_r. repeat split.
  - rewrite for_each_cons.
    destruct (create_instance_cases gl (nb_operations gl) (nb_surgeons gl)
                (nb_rooms gl) default_Tmax (rng w)) as [Hok _].
    destruct (Hok Hs) as (s & g' & E).
    unfold export_instance at 1. unfold io_bind, run. rewrite E.
    unfold syscall, io_always, print. cbn [rng trace].
    match goal with
    | |- context [for_each _ l ?w1] =>
        destruct (IH w1) as (w' & events & Ef & Et & Hd & Hp & Hc)
    end.
    exists w'. eexists. split; [exact Ef |]. cbn [trace] in Et.
    split; [rewrite Et, <- !app_assoc; reflexivity |].
    cbn [app files_written dirs_made printed map fst snd].
    split; [exact Hd |]. split; [now rewrite Hp | now rewrite Hc].
Qed.

(** X9: on a file system that accepts every call, the files of one batch
    have pairwise distinct paths, so no instance overwrites another; and
    the console shows exactly the texts written, in the same order. *)
Theorem batch_files_distinct_and_echoed (gl : Globals) (n : Z)
    (output_folder : string) (w : World) :
  nb_surgeons gl <> 0 \/ nb_operations gl <= 0 ->
  exists w' events,
    generate_multiple_instances gl io_always n (Some output_folder) w
      = (Ok tt, w') /\
    trace w' = trace w ++ Makedirs output_folder :: events /\
    NoDup (map fst (files_written events)) /\
    printed events = map snd (files_written events).
Proof.
  intros Hs.
  unfold generate_multiple_instances, io_bind, syscall, io_always.
  destruct (for_each_export_trace gl output_folder (range n) Hs
              (mkWorld (rng w) (trace w ++ [Makedirs output_folder])))
    as (w' & events & E & Et & _ & Hp & Hc).
  exists w', events. split; [exact E |]. cbn [trace] in Et.
  split; [rewrite Et, <- app_assoc; reflexivity |].
  split; [| exact Hc].
  rewrite Hp. apply NoDup_map_inj; [| apply NoDup_range].
  intros a b H. apply path_join_inj in H. now apply instance_filename_inj in H.
Qed.

Lemma batch_files_distinct_and_echoed_witness :
  exists w' events,
    generate_multiple_instances module_globals io_always 10
      (Some "generated_instances"%string) sample_world = (Ok tt, w') /\
    trace w' = trace sample_world
               ++ Makedirs "generated_instances" :: events /\
    NoDup (map fst (files_written events)) /\
    printed events = map snd (files_written events).
Proof.
  apply (batch_files_distinct_and_echoed module_globals 10
           "generated_instances"%string sample_world).
  left. simpl. lia.
Defined.

(** X10: when making the folder raises an exception ([OSError] from the
    system, [ValueError] for a name with a NUL character), the batch ends
    in that exception before anything is drawn, written or printed; and
    when the folder is made and [n <= 0], nothing else happens. *)
Theorem batch_without_instances (gl : Globals)
    (fs : io_event -> result unit) (n : Z) (output_folder : string)
    (w : World) :
  (forall e : exn,
     fs (Makedirs output_folder) = Raise e ->
     generate_multiple_instances gl fs n (Some output_folder) w
     = (Raise e, w)) /\
  (fs (Makedirs output_folder) = Ok tt -> n <= 0 ->
   generate_multiple_instances gl fs n (Some output_folder) w
   = (Ok tt, mkWorld (rng w) (trace w ++ [Makedirs output_folder]))).
Proof.
  unfold generate_multiple_instances, io_bind, syscall. split.
  - now intros e ->.
  - intros -> Hn. now rewrite (range_nonpos n).
Qed.

Lemma batch_without_instances_witness :
  generate_multiple_instances module_globals io_never 10
    (Some "generated_instances"%string) sample_world
    = (Raise OSError, sample_world) /\
  generate_multiple_instances module_globals io_checks_nul 10
    (Some nul_folder) sample_world
    = (Raise ValueError, sample_world) /\
  generate_multiple_instances module_globals io_always (-3)
    (Some "generated_instances"%string) sample_world
    = (Ok tt, mkWorld sample_rng [Makedirs "generated_instances"]).
Proof.
  split; [| split].
  - apply (batch_without_instances module_globals io_never 10
             "generated_instances"%string sample_world). reflexivity.
  - apply (batch_without_instances module_globals io_checks_nul 10
             nul_folder sample_world). reflexivity.
  - apply (batch_without_instances module_globals io_always (-3)
             "generated_instances"%string sample_world);
      [reflexivity | lia].
Defined.



(** X12: run from any working directory on a file system that accepts
    every call, the module makes the folder [generated_instances] there
    (twice: once itself, once in [generate_multiple_instances]), writes the
    single file [o15_c4_s4_ST_instance_0.txt] into it and prints the text
    it wrote. *)
Theorem main_writes_one_instance (cwd : string) (w : World) :
  exists w' events text,
    main io_always cwd w = (Ok tt, w') /\
    trace w' = trace w ++ events /\
    dirs_made events = [path_join cwd "generated_instances";
                        path_join cwd "generated_instances"] /\
    files_written events
      = [(path_join (path_join cwd "generated_instances")
                    "o15_c4_s4_ST_instance_0.txt", text)] /\
    printed events = [text].
Proof.
  unfold main, generate_multiple_instances, io_bind, syscall, io_always.
  cbn [rng trace].
  destruct (for_each_export_trace module_globals
              (path_join cwd "generated_instances") (range 1)
              ltac:(left; simpl; lia)
              (mkWorld (rng w)
                 ((trace w ++ [Makedirs (path_join cwd "generated_instances")])
                  ++ [Makedirs (path_join cwd "generated_instances")])))
    as (w' & events & E & Et & Hd & Hp & Hc).
  destruct (files_written events) as [| [path text] [| x fs]] eqn:Efiles;
    try discriminate Hp.
  exists w'.
  exists (Makedirs (path_join cwd "generated_instances")
          :: Makedirs (path_join cwd "generated_instances") :: events), text.
  split; [exact E |]. cbn [trace] in Et.
  split; [rewrite Et, <- !app_assoc; reflexivity |].
  cbn [dirs_made files_written printed]. rewrite Hd, Efiles.
  split; [reflexivity |]. split; [| exact Hc].
  cbn [map fst] in Hp. injection Hp as ->. reflexivity.
Qed.

(** ** Asymmetry of the setup times *)

(** X13: the setup-time matrix need not be symmetric: the two directions
    between two types are drawn separately.  With two operations, two
    surgeons and the counting tape, the surgeons get the types 0 and 1 and
    [TD] is [[0, 2], [5, 0]]. *)
Theorem setup_times_not_symmetric :
  ~ (forall (g g' : Rng) (T TD : list (list Z)),
       types_and_setup_times module_globals 2 (round_robin 2 2) 30 4 g
         = Ok ((T, TD), g') ->
       forall o1 o2 line1 line2 d1 d2,
         index TD o1 = Ok line1 -> index line1 o2 = Ok d1 ->
         index TD o2 = Ok line2 -> index line2 o1 = Ok d2 ->
         d1 = d2).
Proof.
  intros H.
  assert (E : exists T g',
             types_and_setup_times module_globals 2 (round_robin 2 2) 30 4
                                   counting_rng
             = Ok ((T, [[0; 2]; [5; 0]]), g')).
  { eexists. eexists. vm_compute. reflexivity. }
  destruct E as (T & g' & E).
  specialize (H counting_rng g' T _ E 0 1 [0; 2] [5; 0] 2 5
                eq_refl eq_refl eq_refl eq_refl).
  discriminate H.
Qed.
